(** * ReadyBuddy: request handlers, catalog and SQLite store of [main.py]

    A shallow embedding of the FastAPI application in [src/main.py]:
    the in-process catalog ([modules], [checklist_items]), the two SQLite
    tables created by [init_db], and the route handlers, written as pure
    functions from a durable database state and a request to the next
    durable state and a response. *)

From Stdlib Require Import ZArith String Ascii List Sorted Lia DecimalString DecimalZ.
From stdpp Require Import base gmap strings list.
Import ListNotations.

Open Scope string_scope.
Open Scope Z_scope.

(** ** Python built-ins used by the handlers *)

Module Py.

(** Truthiness of an [Optional[str]]: [None] and the empty string are
    falsy, every other string is truthy.  [truthy o] is the string held
    by a truthy [o]. *)
Definition truthy (o : option string) : option string :=
  match o with
  | None => None
  | Some s => if String.eqb s "" then None else Some s
  end.

Definition code (c : ascii) : Z := Z.of_N (N_of_ascii c).

Definition is_ascii (c : ascii) : bool := code c <? 128.

(** Whitespace skipped by [int()] around the literal of an ASCII string:
    TAB, LF, VT, FF, CR and the space. *)
Definition is_space (c : ascii) : bool :=
  ((9 <=? code c) && (code c <=? 13)) || (code c =? 32).

Definition is_digit (c : ascii) : bool := (48 <=? code c) && (code c <=? 57).

Fixpoint lstrip (l : list ascii) : list ascii :=
  match l with
  | [] => []
  | c :: r => if is_space c then lstrip r else l
  end.

Definition rstrip (l : list ascii) : list ascii := rev (lstrip (rev l)).

(** The digit part of a base-10 literal: at least one digit, single
    underscores allowed between digits only.  Returns the digits with the
    underscores removed. *)
Fixpoint digits_body (after_digit : bool) (l : list ascii) : option (list ascii) :=
  match l with
  | [] => if after_digit then Some [] else None
  | c :: r =>
      if is_digit c then option_map (cons c) (digits_body true r)
      else if Ascii.eqb c "_" then
             if after_digit then digits_body false r else None
           else None
  end.

(** The characters [str] produces: digits and the minus sign. *)
Definition printed (c : ascii) : bool := is_digit c || Ascii.eqb c "-".

(** [str(n)] on an integer: decimal digits, a leading minus sign for
    negative numbers. *)
Definition str (n : Z) : string := NilZero.string_of_int (Z.to_int n).

(** What [int()] takes from the interpreter.  Strings are kept as their
    UTF-8 bytes; [int()] also accepts decimal digits and whitespace of
    other scripts, and what it answers on a string with a byte outside
    ASCII is left to [int_non_ascii].  [int_max_str_digits] is the limit
    on the number of digits of a literal ([sys.get_int_max_str_digits()],
    4300 unless configured, 0 for no limit or an interpreter that has
    none).  Nothing is assumed about either. *)
Class Runtime := {
  int_non_ascii : string -> option Z;
  int_max_str_digits : Z;
}.

(** A literal of more than 640 digits is refused when it has more digits
    than the limit. *)
Definition too_many_digits `{Runtime} (digits : Z) : bool :=
  (640 <? digits) && (0 <? int_max_str_digits)
  && (int_max_str_digits <? digits).

Definition int_digits `{Runtime} (l : list ascii) : option Z :=
  match digits_body false l with
  | None => None
  | Some ds =>
      if too_many_digits (Z.of_nat (List.length ds)) then None
      else option_map Z.of_uint
             (NilEmpty.uint_of_string (string_of_list_ascii ds))
  end.

(** [int(s)] on a string of ASCII characters; [None] stands for
    [ValueError]. *)
Definition int_ascii `{Runtime} (s : string) : option Z :=
  match rstrip (lstrip (list_ascii_of_string s)) with
  | [] => None
  | c :: r =>
      if Ascii.eqb c "-" then option_map Z.opp (int_digits r)
      else if Ascii.eqb c "+" then int_digits r
      else int_digits (c :: r)
  end.

(** [int(s)] *)
Definition int `{Runtime} (s : string) : option Z :=
  if forallb is_ascii (list_ascii_of_string s) then int_ascii s
  else int_non_ascii s.

(** An interpreter with the default limit, whose [int()] rejects every
    string with a non-ASCII byte. *)
Definition default_runtime : Runtime :=
  {| int_non_ascii := fun _ => None; int_max_str_digits := 4300 |}.

End Py.

(** ** Data models *)

(** [Module.question], the dictionary with keys [text], [options] and
    [answer]. *)
Record Question := {
  text : string;
  options : list string;
  answer : string;
}.

(** Class [Module] ([Module] is reserved, hence the name). *)
Record LessonModule := {
  id : Z;
  title : string;
  description : string;
  content : string;
  question : Question;
  image : option string;
  video_link : option string;
}.

(** The constructor [Module.__init__], with its two optional arguments. *)
Definition mk_module (id : Z) (title description content question_text : string)
    (options : list string) (answer : string)
    (image video_link : option string) : LessonModule :=
  {| id := id; title := title; description := description;
     content := content;
     question := {| text := question_text; options := options;
                    answer := answer |};
     image := image; video_link := video_link |}.

Record ChecklistItem := {
  item_id : Z;
  name : string;
  affiliate_url : string;
}.

(** ** The in-process catalog *)

Definition modules : list LessonModule := [
  mk_module 1
    "Home Emergency Kit"
    "Build a basic emergency kit for your home."
    "A well‑stocked emergency kit is critical. Ensure you have at least a three‑day supply of non‑perishable food, one gallon of water per person per day, a flashlight with extra batteries, a battery‑powered or hand‑crank radio, first aid supplies, a whistle to signal for help, and local maps. Rotate food and water every six months."
    "What is the recommended minimum amount of water to store per person per day?"
    ["Half a gallon"; "One gallon"; "Two gallons"]
    "One gallon"
    None None;
  mk_module 2
    "Fire Safety & Prevention"
    "Learn how to reduce fire risks and respond effectively."
    "Install smoke detectors on every level of your home and test them monthly. Practice a family fire escape plan twice a year. Keep a fire extinguisher in the kitchen and know how to use it. Never leave cooking unattended."
    "How often should you test your smoke detectors?"
    ["Every week"; "Every month"; "Every year"]
    "Every month"
    None None;
  mk_module 3
    "Seismic Safety Basics"
    "Secure your home and identify safe spots before an earthquake."
    "Secure heavy furniture and appliances to walls, and store breakable items on low shelves. Identify safe spots in each room, like under sturdy tables or against interior walls. Practice drills so everyone knows where to go."
    "Where is a safe place to be during an earthquake?"
    ["Near exterior windows"; "Under a sturdy table"; "In a doorway"]
    "Under a sturdy table"
    None None;
  mk_module 4
    "First Aid Basics"
    "Understand essential first aid techniques."
    "Learn how to perform CPR, treat minor cuts and burns, and recognize signs of shock. Always have a well‑stocked first aid kit and take a certified course to refresh your skills annually."
    "Which of the following is recommended for treating a minor burn?"
    ["Apply ice directly"; "Use cool water and cover with a sterile gauze"; "Pop any blisters"]
    "Use cool water and cover with a sterile gauze"
    None None;
  mk_module 5
    "Evacuation Planning"
    "Create and practice an evacuation plan."
    "Identify multiple evacuation routes from your home and community. Choose meeting points and communication plans. Keep your vehicle fueled, and have a go‑bag ready with essential documents, cash, and supplies."
    "Why is it important to have multiple evacuation routes?"
    ["In case roads are blocked"; "It isn’t important"; "To increase travel time"]
    "In case roads are blocked"
    None None;
  mk_module 6
    "Drop, Cover & Hold On"
    "Learn how to protect yourself during an earthquake."
    "Earthquakes strike without warning. To protect yourself, follow the 'Drop, Cover, and Hold On' procedure: drop to the ground before the quake drops you, take cover under a sturdy table or desk (or cover your head and neck with your arms if no shelter is available), and hold on until the shaking stops. Secure heavy items in your home, such as bookcases and appliances, to prevent them from falling. Prepare an emergency kit and practice drills with your family."
    "What should you do during an earthquake?"
    ["Run outside"; "Drop, Cover, and Hold On"; "Stand in a doorway"]
    "Drop, Cover, and Hold On"
    (Some "earthquake.png") (Some "https://www.shakeout.org/dropcoverholdon/");
  mk_module 7
    "Tsunami Preparedness"
    "Understand tsunami warning signs and how to respond quickly."
    "If you are near the coast and feel strong or long shaking, hear a loud roar from the ocean, or notice the water suddenly recede, a tsunami could be coming. Have multiple ways to receive warnings (NOAA Weather Radio, text alerts) and know your community’s evacuation routes to high ground. Create a family emergency plan, practice walking your evacuation routes, and prepare a portable disaster supplies kit."
    "After feeling strong shaking near the coast, what should you do?"
    ["Wait for an official alert"; "Immediately go to high ground"; "Call your neighbors"]
    "Immediately go to high ground"
    (Some "tsunami.png") (Some "https://www.weather.gov/jetstream/tsunami");
  mk_module 8
    "Urban Survival Basics"
    "Tips for staying safe and prepared in city environments."
    "Urban emergencies can include power outages, civil unrest, and infrastructure failures. Maintain situational awareness and have a family communication plan. Keep a get‑home bag with water, snacks, first aid supplies, and sturdy shoes. Know how to shut off utilities and identify safe shelter locations. Follow guidance from local authorities and stay informed through reliable news sources."
    "Which of the following is NOT recommended for urban survival?"
    ["Keep a get-home bag"; "Have a family communication plan"; "Ignore local authorities"]
    "Ignore local authorities"
    (Some "urban.png") (Some "https://www.ready.gov/power-outages");
  mk_module 9
    "Rural Survival Basics"
    "Fundamental skills for survival in wilderness and rural areas."
    "In rural or wilderness settings, your priorities are shelter, water, fire, and food. Learn to locate and purify water from natural sources, build a simple shelter, and start a fire safely. Carry a map and compass, and know basic navigation. Understand local flora and fauna, and always let someone know your travel plans before venturing out."
    "What is the priority when lost in a rural wilderness?"
    ["Posting on social media"; "Finding a safe water source"; "Collecting souvenirs"]
    "Finding a safe water source"
    (Some "rural.png") (Some "https://www.ready.gov/wilderness")
].

Definition checklist_items : list ChecklistItem := [
  {| item_id := 1; name := "Water (one gallon per person per day)";
     affiliate_url := "https://www.amazon.com/dp/B0B5YYR5J9" |};
  {| item_id := 2; name := "Non‑perishable food for three days";
     affiliate_url := "https://www.amazon.com/dp/B084QVTVGN" |};
  {| item_id := 3; name := "Battery‑powered or hand‑crank radio";
     affiliate_url := "https://www.amazon.com/dp/B07PVX7LH8" |};
  {| item_id := 4; name := "Flashlight & extra batteries";
     affiliate_url := "https://www.amazon.com/dp/B004US6R7G" |};
  {| item_id := 5; name := "First aid kit";
     affiliate_url := "https://www.amazon.com/dp/B01FSTYHXW" |};
  {| item_id := 6; name := "Whistle to signal for help";
     affiliate_url := "https://www.amazon.com/dp/B000X25YTA" |}
].

Definition resources : list (gmap string string) := [
  <[ "name" := "SERV‑OR" ]> (<[ "url" := "https://www.serv-or.org" ]> (<[ "description" :=
    "The State Emergency Registry of Volunteers in Oregon (SERV‑OR) is a statewide registry of pre‑credentialed health care professionals who volunteer during emergencies with significant health impacts. Sponsored by the Oregon Public Health Division in partnership with the Medical Reserve Corps, SERV‑OR uses a secure database to register, credential and alert volunteers so they can be called on to help when disaster strikes" ]> ∅));
  <[ "name" := "Medical Reserve Corps (MRC)" ]> (<[ "url" := "https://serv-or.org/ResourceLibrary/Pages/Medical-Reserve-Corps.aspx" ]> (<[ "description" :=
    "The Medical Reserve Corps is a national network of licensed health care and medical professionals who volunteer to help during disasters and emergency preparedness activities. Local MRC units, such as those in Multnomah, Clackamas and Washington counties, recruit doctors, nurses, pharmacists and other licensed providers to assist with community reception centers, vaccination clinics, disease investigation, contact tracing, emergency call centers and public education" ]> ∅));
  <[ "name" := "Community Emergency Response Team (CERT)" ]> (<[ "url" := "https://servewashington.wa.gov/programs/cert-community-emergency-response-team" ]> (<[ "description" :=
    "CERTs are volunteer teams that support professional first responders. Members learn basic disaster response skills—fire safety, light search and rescue and medical operations—and teach people in their neighborhoods how to prepare for disasters. During emergencies, CERT volunteers can provide first aid, check on neighbors, support local emergency centers, and connect survivors to resources" ]> ∅));
  <[ "name" := "OregonServes & ORVID" ]> (<[ "url" := "https://www.oregon.gov/oregonserves/emergency-response/Pages/default.aspx" ]> (<[ "description" :=
    "OregonServes is the state service commission that partners in Oregon’s Emergency Response Plan for managing volunteers and donations. It increases response and recovery resources by administering the Oregon Volunteers in Disaster (ORVID) system—a free, statewide volunteer management tool that helps emergency managers track and credential volunteers and helps volunteers connect to opportunities in their communities" ]> ∅))
].

(** ** The SQLite store *)

(** A row of [user_profiles]. *)
Record UserProfile := {
  up_id : Z;
  family_size : Z;
  location : string;
  skill_level : string;
}.

(** A row of [quiz_results].  [user_id] is a nullable column; the
    [FOREIGN KEY] clause is not enforced, the application never turns the
    [foreign_keys] pragma on. *)
Record QuizResult := {
  qr_id : Z;
  user_id : option Z;
  module_id : Z;
  score : Z;
  timestamp : string;
}.

(** The committed content of [app.db]: the rows of both tables in
    insertion order and, for each [AUTOINCREMENT] key, its entry of
    [sqlite_sequence] (the largest rowid the table ever held). *)
Record DB := {
  user_profiles : list UserProfile;
  user_profiles_seq : Z;
  quiz_results : list QuizResult;
  quiz_results_seq : Z;
}.

Definition empty_db : DB :=
  {| user_profiles := []; user_profiles_seq := 0;
     quiz_results := []; quiz_results_seq := 0 |}.

(** [init_db]: [CREATE TABLE IF NOT EXISTS] for both tables.  [None] is a
    database file without the tables. *)
Definition init_db (file : option DB) : DB :=
  match file with
  | None => empty_db
  | Some db => db
  end.

Definition MAX_ROWID : Z := 9223372036854775807.

(** A Python integer is bound to a statement parameter only when it fits
    a signed 64-bit integer; otherwise [execute] raises [OverflowError]. *)
Definition fits_int64 (n : Z) : bool :=
  (- MAX_ROWID - 1 <=? n) && (n <=? MAX_ROWID).

Definition max_rowid (ids : list Z) : Z := fold_right Z.max 0 ids.

(** The rowid an [AUTOINCREMENT] table gives to the next row: one more
    than the largest rowid it ever held; none is left once that reached
    [MAX_ROWID] (the insert fails with [SQLITE_FULL]). *)
Definition next_rowid (seq : Z) (ids : list Z) : option Z :=
  let last := Z.max seq (max_rowid ids) in
  if MAX_ROWID <=? last then None else Some (last + 1).

(** [INSERT INTO user_profiles (family_size, location, skill_level)
    VALUES (?, ?, ?)]: the database with the row added and [lastrowid], or
    [None] when the statement raises. *)
Definition insert_user_profile (db : DB) (family_size : Z)
    (location skill_level : string) : option (DB * Z) :=
  if fits_int64 family_size then
    match next_rowid (user_profiles_seq db) (map up_id (user_profiles db)) with
    | None => None
    | Some rid =>
        Some ({| user_profiles :=
                   user_profiles db ++
                   [ {| up_id := rid; family_size := family_size;
                        location := location; skill_level := skill_level |} ];
                 user_profiles_seq := rid;
                 quiz_results := quiz_results db;
                 quiz_results_seq := quiz_results_seq db |}, rid)
    end
  else None.

(** [INSERT INTO quiz_results (user_id, module_id, score) VALUES (?, ?, ?)];
    [now] is the value of [CURRENT_TIMESTAMP]. *)
Definition insert_quiz_result (db : DB) (now : string)
    (user_id module_id score : Z) : option (DB * Z) :=
  if fits_int64 user_id && fits_int64 module_id && fits_int64 score then
    match next_rowid (quiz_results_seq db) (map qr_id (quiz_results db)) with
    | None => None
    | Some rid =>
        Some ({| user_profiles := user_profiles db;
                 user_profiles_seq := user_profiles_seq db;
                 quiz_results :=
                   quiz_results db ++
                   [ {| qr_id := rid; user_id := Some user_id;
                        module_id := module_id; score := score;
                        timestamp := now |} ];
                 quiz_results_seq := rid |}, rid)
    end
  else None.

(** Where the storage layer raises, if it does, during the
    [connect]/[execute]/[commit]/[close] sequence of one request. *)
Inductive Fault := NoFault | ConnectFails | ExecuteFails | CommitFails | CloseFails.

(** What a request takes from outside the program. *)
Record Env := {
  fault : Fault;
  now : string;
}.

(** The sequence [connect; execute; lastrowid; commit; close] around one
    [INSERT].  Returns the committed database and the point reached:
    [None] when the exception was raised before [lastrowid] was read,
    [Some rid] afterwards.  A transaction whose [commit] raised is rolled
    back when the connection is dropped. *)
Definition connect_insert_commit (f : Fault) (db : DB)
    (stmt : DB -> option (DB * Z)) : DB * option Z :=
  match f with
  | ConnectFails | ExecuteFails => (db, None)
  | CommitFails =>
      match stmt db with
      | None => (db, None)
      | Some (_, rid) => (db, Some rid)
      end
  | CloseFails | NoFault =>
      match stmt db with
      | None => (db, None)
      | Some (db', rid) => (db', Some rid)
      end
  end.

(** ** Requests and responses *)

Record Request := {
  query_params : gmap string string;
  cookies : gmap string string;
}.

Record Cookie := {
  key : string;
  value : string;
  max_age : Z;
  httponly : bool;
}.

(** Values put in a template context. *)
Inductive Value :=
| VRequest (r : Request)
| VModule (m : LessonModule)
| VModules (ms : list LessonModule)
| VItems (items : list ChecklistItem)
| VResources (rs : list (gmap string string))
| VStr (s : string)
| VBool (b : bool).

(** What a handler hands back to the framework: a rendered template, a
    redirect (with the cookie set on it, if any), or a raised
    [HTTPException]. *)
Inductive Response :=
| TemplateResponse (template : string) (context : gmap string Value)
| RedirectResponse (url : string) (status_code : Z) (set_cookie : option Cookie)
| HTTPException (status_code : Z) (detail : string).

(** ** Route handlers *)

Section Handlers.

Context `{rt : Py.Runtime}.

(** [next((m for m in modules if m.id == module_id), None)] *)
Definition find_module (module_id : Z) : option LessonModule :=
  find (fun m => id m =? module_id) modules.

(** [GET /] *)
Definition home (request : Request) : Response :=
  TemplateResponse "onboarding.html" (<["request" := VRequest request]> ∅).

(** The [try] block of [submit_onboarding]: the committed database and
    the value [user_id] holds after the block. *)
Definition onboarding_try (env : Env) (db : DB) (request : Request)
    : DB * option Z :=
  let family_size_raw := query_params request !! "family_size" in
  let location := query_params request !! "location" in
  let skill_level := query_params request !! "skill_level" in
  match Py.truthy family_size_raw, Py.truthy location, Py.truthy skill_level with
  | Some family_size_raw, Some location, Some skill_level =>
      match Py.int family_size_raw with
      | None => (db, None)
      | Some family_size =>
          if 0 <? family_size then
            connect_insert_commit (fault env) db
              (fun db => insert_user_profile db family_size location skill_level)
          else (db, None)
      end
  | _, _, _ => (db, None)
  end.

(** [GET /onboarding] *)
Definition submit_onboarding (env : Env) (db : DB) (request : Request)
    : DB * Response :=
  let '(db', user_id) := onboarding_try env db request in
  (db',
   RedirectResponse "/modules" 303
     match user_id with
     | Some user_id =>
         Some {| key := "user_id"; value := Py.str user_id;
                 max_age := 60 * 60 * 24 * 30; httponly := true |}
     | None => None
     end).

(** [GET /modules] *)
Definition modules_list (request : Request) : Response :=
  TemplateResponse "modules.html"
    (<["request" := VRequest request]> (<["modules" := VModules modules]> ∅)).

(** [GET /modules/{module_id}] *)
Definition module_detail (module_id : Z) (request : Request) : Response :=
  match find_module module_id with
  | None => HTTPException 404 "Module not found"
  | Some module =>
      TemplateResponse "module_detail.html"
        (<["request" := VRequest request]> (<["module" := VModule module]> ∅))
  end.

(** The response [submit_quiz] ends with: [quiz_result.html] rendered
    with the request, the module, the selected option and the verdict. *)
Definition quiz_result_page (request : Request) (module : LessonModule)
    (selected : string) (correct : bool) : Response :=
  TemplateResponse "quiz_result.html"
    (<["request" := VRequest request]>
     (<["module" := VModule module]>
      (<["selected" := VStr selected]>
       (<["correct" := VBool correct]> ∅)))).

(** The cookie branch of [submit_quiz]: the committed database after the
    attempt to record the result. *)
Definition record_result (env : Env) (db : DB) (module_id : Z)
    (request : Request) (correct : bool) : DB :=
  match cookies request !! "user_id" with
  | None => db
  | Some user_id_str =>
      match Py.int user_id_str with
      | None => db
      | Some user_id =>
          let score := if correct then 1 else 0 in
          fst (connect_insert_commit (fault env) db
                 (fun db => insert_quiz_result db (now env) user_id module_id score))
      end
  end.

(** [GET /modules/{module_id}/quiz] *)
Definition submit_quiz (env : Env) (db : DB) (module_id : Z)
    (request : Request) : DB * Response :=
  match find_module module_id with
  | None => (db, HTTPException 404 "Module not found")
  | Some module =>
      match Py.truthy (query_params request !! "selected_option") with
      | None =>
          (db, RedirectResponse ("/modules/" ++ Py.str module_id) 303 None)
      | Some selected_option =>
          let correct := String.eqb selected_option (answer (question module)) in
          (record_result env db module_id request correct,
           quiz_result_page request module selected_option correct)
      end
  end.

(** [GET /checklist] *)
Definition view_checklist (request : Request) : Response :=
  TemplateResponse "checklist.html"
    (<["request" := VRequest request]> (<["items" := VItems checklist_items]> ∅)).

(** [GET /resources] *)
Definition resources_page (request : Request) : Response :=
  TemplateResponse "resources.html"
    (<["request" := VRequest request]>
     (<["resources" := VResources resources]> ∅)).

(** ** The application as a machine over the database *)

(** One request routed to its handler, with what it takes from outside. *)
Inductive Call :=
| GetHome (request : Request)
| GetOnboarding (env : Env) (request : Request)
| GetModules (request : Request)
| GetModule (module_id : Z) (request : Request)
| GetQuiz (env : Env) (module_id : Z) (request : Request)
| GetChecklist (request : Request)
| GetResources (request : Request).

Definition handle (db : DB) (c : Call) : DB * Response :=
  match c with
  | GetHome r => (db, home r)
  | GetOnboarding env r => submit_onboarding env db r
  | GetModules r => (db, modules_list r)
  | GetModule module_id r => (db, module_detail module_id r)
  | GetQuiz env module_id r => submit_quiz env db module_id r
  | GetChecklist r => (db, view_checklist r)
  | GetResources r => (db, resources_page r)
  end.

(** The database after serving the calls in order. *)
Definition serve (db : DB) (calls : list Call) : DB :=
  fold_left (fun db c => fst (handle db c)) calls db.

End Handlers.

(** ** Concrete requests *)

Module Sample.

(** A request with the given query string and cookies. *)
Definition get (query cookie : list (string * string)) : Request :=
  {| query_params := list_to_map query; cookies := list_to_map cookie |}.

Definition env (f : Fault) : Env :=
  {| fault := f; now := "2025-06-01 12:00:00" |}.

Definition portland : Request :=
  get [("family_size", "3"); ("location", "Portland");
       ("skill_level", "beginner")] [].

(** The first module of the catalog, "Home Emergency Kit". *)
Definition home_kit : LessonModule :=
  match modules with
  | m :: _ => m
  | [] => mk_module 0 "" "" "" "" [] "" None None
  end.

(** [/modules/{id}/quiz?selected_option=...] with the given cookies. *)
Definition answer_with (selected : string) (cookie : list (string * string))
    : Request :=
  get [("selected_option", selected)] cookie.

End Sample.

(** An insert is durable when [commit] returned. *)
Definition committed (f : Fault) : bool :=
  match f with
  | NoFault | CloseFails => true
  | ConnectFails | ExecuteFails | CommitFails => false
  end.

(** A query parameter that is absent or empty. *)
Definition not_supplied (o : option string) : Prop := o = None \/ o = Some "".

(** An onboarding submission that is partial or invalid: a field is
    absent or empty, or [family_size] is not read as an integer, or is read
    as zero or a negative number. *)
Definition invalid_onboarding `{rt : Py.Runtime} (request : Request) : Prop :=
  not_supplied (query_params request !! "family_size")
  \/ not_supplied (query_params request !! "location")
  \/ not_supplied (query_params request !! "skill_level")
  \/ exists s, query_params request !! "family_size" = Some s
               /\ (Py.int s = None \/ exists n, Py.int s = Some n /\ n <= 0).

(** The onboarding submission wrote a profile row, with id [uid]. *)
Definition writes_profile `{rt : Py.Runtime} (env : Env) (db : DB)
    (request : Request) (uid : Z) : Prop :=
  exists p,
    user_profiles (fst (submit_onboarding env db request))
      = (user_profiles db ++ [p])%list
    /\ up_id p = uid.

(** The row [submit_quiz] inserts into [quiz_results]. *)
Definition result_row (rid uid mid : Z) (correct : bool) (now : string)
    : QuizResult :=
  {| qr_id := rid; user_id := Some uid; module_id := mid;
     score := if correct then 1 else 0; timestamp := now |}.

(** The ids of [user_profiles] are positive, strictly increasing in
    insertion order and not above the table's sequence. *)
Definition profiles_ordered (db : DB) : Prop :=
  StronglySorted Z.lt (map up_id (user_profiles db))
  /\ Forall (fun i => 0 < i <= user_profiles_seq db)
            (map up_id (user_profiles db)).

(** ** The store over a run of requests *)

(** What one request can do to the committed store: nothing, one
    [INSERT] into [user_profiles] with the fields of a submitted form, or
    one [INSERT] into [quiz_results] for a module of the catalog. *)
Inductive store_step (db : DB) : DB -> Prop :=
| step_none : store_step db db
| step_profile fs loc sl db' rid :
    0 < fs -> loc <> "" -> sl <> "" ->
    insert_user_profile db fs loc sl = Some (db', rid) ->
    store_step db db'
| step_result now uid m (correct : bool) db' rid :
    In m modules ->
    insert_quiz_result db now uid (id m) (if correct then 1 else 0)
      = Some (db', rid) ->
    store_step db db'.

(** A row of [user_profiles] as the onboarding form lets it in. *)
Definition valid_profile (p : UserProfile) : Prop :=
  0 < family_size p <= MAX_ROWID /\ location p <> "" /\ skill_level p <> "".

(** A row of [quiz_results] as the quiz handler writes it. *)
Definition valid_result (r : QuizResult) : Prop :=
  (exists m, In m modules /\ id m = module_id r)
  /\ (score r = 0 \/ score r = 1)
  /\ exists uid, user_id r = Some uid /\ fits_int64 uid = true.

(** The ids of a table are 1, 2, ..., n in insertion order, and its
    sequence is n. *)
Definition numbered (ids : list Z) (seq : Z) : Prop :=
  ids = seqZ 1 (Z.of_nat (List.length ids)) /\ seq = Z.of_nat (List.length ids).

(** How many of the calls are onboarding submissions, quiz submissions. *)
Definition onboardings (calls : list Call) : nat :=
  List.length (List.filter (fun c => match c with GetOnboarding _ _ => true | _ => false end) calls).

Definition quizzes (calls : list Call) : nat :=
  List.length (List.filter (fun c => match c with GetQuiz _ _ _ => true | _ => false end) calls).

(** * Properties *)

(** ** [str] and [int] *)

Module PyFacts.
Import Py.

Lemma printed_plain c :
  printed c = true ->
  is_space c = false /\ is_ascii c = true /\ Ascii.eqb c "+" = false /\
  Ascii.eqb c "_" = false.
Proof.
  destruct c as [[] [] [] [] [] [] [] []]; vm_compute; intuition congruence.
Qed.

Lemma digit_printed c : is_digit c = true -> printed c = true.
Proof. unfold printed. now intros ->. Qed.

Lemma digit_not_minus c : is_digit c = true -> Ascii.eqb c "-" = false.
Proof. destruct c as [[] [] [] [] [] [] [] []]; vm_compute; congruence. Qed.

Lemma lstrip_plain l :
  Forall (fun c => is_space c = false) l -> lstrip l = l.
Proof. destruct 1 as [|c r Hc _]; simpl; [reflexivity | now rewrite Hc]. Qed.

Lemma rstrip_plain l :
  Forall (fun c => is_space c = false) l -> rstrip l = l.
Proof.
  intros Hl. unfold rstrip.
  rewrite lstrip_plain by now apply Forall_rev.
  apply rev_involutive.
Qed.

Lemma digits_body_digits l :
  Forall (fun c => is_digit c = true) l -> digits_body true l = Some l.
Proof.
  induction 1 as [|c r Hc _ IH]; simpl; [reflexivity|].
  now rewrite Hc, IH.
Qed.

Lemma digits_of_uint d :
  Forall (fun c => is_digit c = true)
         (list_ascii_of_string (NilEmpty.string_of_uint d)).
Proof. induction d; simpl; constructor; auto. Qed.

Lemma string_of_uint_nonnil d :
  d <> Decimal.Nil -> NilZero.string_of_uint d = NilEmpty.string_of_uint d.
Proof. now destruct d. Qed.

Lemma str_ascii n : forallb is_ascii (list_ascii_of_string (str n)) = true.
Proof.
  assert (forall d, forallb is_ascii
            (list_ascii_of_string (NilEmpty.string_of_uint d)) = true) as Hd.
  { intros d. apply forallb_forall. intros c Hc.
    pose proof (digits_of_uint d) as Hall.
    rewrite List.Forall_forall in Hall.
    now apply printed_plain, digit_printed, Hall. }
  unfold str.
  destruct n as [|p|p]; [reflexivity| |]; simpl;
    rewrite (string_of_uint_nonnil _ (DecimalPos.Unsigned.to_uint_nonnil p));
    simpl; now rewrite ?Hd.
Qed.

Lemma length_string_of_uint d :
  List.length (list_ascii_of_string (NilEmpty.string_of_uint d))
  = Decimal.nb_digits d.
Proof. induction d; simpl; congruence. Qed.

(** Doubling a little-endian decimal number adds one digit at most. *)
Lemma nb_digits_double d :
  (Decimal.nb_digits (Decimal.Little.double d) <= S (Decimal.nb_digits d))%nat
  /\ (Decimal.nb_digits (Decimal.Little.succ_double d)
      <= S (Decimal.nb_digits d))%nat.
Proof. induction d as [|d [? ?]|d [? ?]|d [? ?]|d [? ?]|d [? ?]|d [? ?]
                        |d [? ?]|d [? ?]|d [? ?]|d [? ?]]; simpl; lia. Qed.

(** A positive number has no more decimal digits than binary ones. *)
Lemma nb_digits_to_uint p :
  (Decimal.nb_digits (Pos.to_uint p) <= Pos.size_nat p)%nat.
Proof.
  unfold Pos.to_uint. rewrite DecimalFacts.nb_digits_rev.
  induction p as [p IH|p IH|]; simpl; [| |lia].
  - destruct (nb_digits_double (Pos.to_little_uint p)). lia.
  - destruct (nb_digits_double (Pos.to_little_uint p)). lia.
Qed.

Lemma size_nat_pow p : 2 ^ Z.of_nat (Pos.size_nat p) <= 2 * Z.pos p.
Proof.
  induction p as [p IH|p IH|]; cbn [Pos.size_nat];
    rewrite ?Nat2Z.inj_succ, ?Z.pow_succ_r by lia; [lia|lia|].
  simpl. lia.
Qed.

Lemma nb_digits_below p :
  Z.pos p < 2 ^ 640 -> (Decimal.nb_digits (Pos.to_uint p) <= 640)%nat.
Proof.
  intros Hp.
  assert (Z.of_nat (Pos.size_nat p) < 641) as Hsize.
  { apply (Z.pow_lt_mono_r_iff 2); [lia|lia|].
    pose proof (size_nat_pow p).
    replace 641 with (Z.succ 640) by lia. rewrite Z.pow_succ_r by lia. lia. }
  pose proof (nb_digits_to_uint p). lia.
Qed.

Section Parsing.

Context `{rt : Runtime}.

Lemma few_digits n : n <= 640 -> too_many_digits n = false.
Proof.
  intros Hn. unfold too_many_digits.
  now replace (640 <? n) with false by (symmetry; apply Z.ltb_ge; lia).
Qed.

Lemma int_digits_of_uint d :
  d <> Decimal.Nil ->
  (Decimal.nb_digits d <= 640)%nat ->
  int_digits (list_ascii_of_string (NilEmpty.string_of_uint d))
  = Some (Z.of_uint d).
Proof.
  intros Hd Hlen. unfold int_digits.
  pose proof (digits_of_uint d) as Hall.
  assert (digits_body false (list_ascii_of_string (NilEmpty.string_of_uint d))
          = Some (list_ascii_of_string (NilEmpty.string_of_uint d))) as ->.
  { destruct d; try congruence; simpl in *; inversion_clear Hall as [|? ? Hc Hr];
      rewrite ?Hc; simpl; now rewrite digits_body_digits. }
  rewrite length_string_of_uint, few_digits by lia.
  now rewrite string_of_list_ascii_of_string, NilEmpty.usu.
Qed.

(** [int_ascii] reads back what is printed for a signed decimal number
    of 640 digits at most. *)
Lemma int_ascii_string_of_int (i : Decimal.int) :
  match i with
  | Decimal.Pos d | Decimal.Neg d =>
      d <> Decimal.Nil /\ (Decimal.nb_digits d <= 640)%nat
  end ->
  int_ascii (NilZero.string_of_int i) = Some (Z.of_int i).
Proof.
  destruct i as [d|d]; intros [Hd Hlen]; unfold int_ascii; simpl;
    rewrite (string_of_uint_nonnil d Hd);
    pose proof (digits_of_uint d) as Hall.
  - rewrite lstrip_plain, rstrip_plain;
      try (eapply Forall_impl; [exact Hall|]; intros c Hc;
           now apply printed_plain, digit_printed).
    pose proof (int_digits_of_uint d Hd Hlen) as Hint.
    destruct (list_ascii_of_string (NilEmpty.string_of_uint d)) as [|c r] eqn:E.
    + destruct d; simpl in E; congruence.
    + inversion_clear Hall as [|? ? Hc _].
      rewrite (digit_not_minus c Hc).
      destruct (printed_plain c (digit_printed c Hc)) as (_ & _ & -> & _).
      exact Hint.
  - assert (Forall (fun c => is_space c = false)
              ("-"%char :: list_ascii_of_string (NilEmpty.string_of_uint d))) as Hsp.
    { constructor; [reflexivity|].
      eapply Forall_impl; [exact Hall|]. intros c Hc.
      now apply printed_plain, digit_printed. }
    rewrite rstrip_plain by exact Hsp.
    change (Ascii.eqb "-" "-") with true. cbv iota.
    now rewrite int_digits_of_uint.
Qed.

(** Round trip of the cookie value: [int(str(n)) == n], on every
    runtime, for a number short enough to escape the limit on digits. *)
Lemma int_str (n : Z) : Z.abs n < 2 ^ 640 -> int (str n) = Some n.
Proof.
  intros Hn. unfold int. rewrite str_ascii. unfold str.
  rewrite int_ascii_string_of_int.
  - now rewrite DecimalZ.of_to.
  - destruct n as [|p|p]; simpl.
    + split; [discriminate | lia].
    + split; [apply DecimalPos.Unsigned.to_uint_nonnil|].
      apply nb_digits_below. lia.
    + split; [apply DecimalPos.Unsigned.to_uint_nonnil|].
      apply nb_digits_below. lia.
Qed.

End Parsing.

End PyFacts.

(** ** The catalog *)

Lemma find_module_in m : In m modules -> find_module (id m) = Some m.
Proof.
  unfold modules. intros Hin.
  repeat (destruct Hin as [<- | Hin]; [reflexivity|]).
  destruct Hin.
Qed.

Lemma find_module_some module_id m :
  find_module module_id = Some m -> In m modules /\ id m = module_id.
Proof.
  unfold find_module. intros Hf.
  apply find_some in Hf as [Hin Heq].
  split; [exact Hin | now apply Z.eqb_eq].
Qed.

Lemma find_module_unknown module_id :
  (forall m, In m modules -> id m <> module_id) ->
  find_module module_id = None.
Proof.
  intros Hno.
  destruct (find_module module_id) as [m|] eqn:Hf; [|reflexivity].
  apply find_module_some in Hf as [Hin Heq].
  now destruct (Hno m Hin).
Qed.

Lemma module_id_range m : In m modules -> 1 <= id m <= 9.
Proof.
  unfold modules. intros Hin.
  repeat (destruct Hin as [<- | Hin]; [simpl; lia|]).
  destruct Hin.
Qed.

Lemma truthy_not_supplied o : not_supplied o -> Py.truthy o = None.
Proof. now intros [-> | ->]. Qed.

Lemma truthy_some o s : Py.truthy o = Some s -> o = Some s /\ s <> "".
Proof.
  destruct o as [s'|]; simpl; [|discriminate].
  destruct (String.eqb_spec s' ""); [discriminate|].
  intros [= <-]. now split.
Qed.

Lemma truthy_supplied s : s <> "" -> Py.truthy (Some s) = Some s.
Proof.
  intros Hs. simpl. now destruct (String.eqb_spec s "").
Qed.

(** ** Handlers *)

Section HandlerProperties.

Context `{rt : Py.Runtime}.

(** C8. Catalog integrity: the answer of every module of the catalog is
    one of the options of its question. *)
Theorem answer_among_options m :
  In m modules -> In (answer (question m)) (options (question m)).
Proof.
  intros Hin.
  assert (forallb (fun m => existsb (String.eqb (answer (question m)))
                                    (options (question m))) modules = true)
    as Hall by (vm_compute; reflexivity).
  rewrite forallb_forall in Hall.
  apply Hall, existsb_exists in Hin as (o & Ho & Heq).
  apply String.eqb_eq in Heq. now subst o.
Qed.

(** C7. A module id that no module of the catalog has is answered with
    404 "Module not found", by the module page and by the quiz handler
    alike (whatever the request and the state of the store, which is left
    as it was). *)
Theorem unknown_module_not_found env db module_id request :
  (forall m, In m modules -> id m <> module_id) ->
  module_detail module_id request = HTTPException 404 "Module not found"
  /\ submit_quiz env db module_id request
     = (db, HTTPException 404 "Module not found").
Proof.
  intros Hno. unfold module_detail, submit_quiz.
  now rewrite (find_module_unknown module_id Hno).
Qed.

(** C10. The quiz handler looks the module up before it looks at the
    selection: on an unknown module id a request without
    [selected_option] gets the 404, never a redirect, while the same
    request on a module of the catalog is redirected to the module
    page. *)
Theorem unknown_module_before_missing_selection env db module_id request :
  (forall m, In m modules -> id m <> module_id) ->
  not_supplied (query_params request !! "selected_option") ->
  snd (submit_quiz env db module_id request)
    = HTTPException 404 "Module not found"
  /\ (forall url status cookie,
        snd (submit_quiz env db module_id request)
          <> RedirectResponse url status cookie)
  /\ (forall m, In m modules ->
        snd (submit_quiz env db (id m) request)
          = RedirectResponse ("/modules/" ++ Py.str (id m)) 303 None).
Proof.
  intros Hno Hsel. unfold submit_quiz.
  rewrite (find_module_unknown module_id Hno).
  split; [reflexivity|]. split; [discriminate|].
  intros m Hin.
  now rewrite (find_module_in m Hin), (truthy_not_supplied _ Hsel).
Qed.

(** C6. A quiz request on a module of the catalog without a
    [selected_option] (absent or empty) is redirected, with status 303, to
    [/modules/{id}]; the store is left as it was and no cookie is set. *)
Theorem missing_selection_redirects env db m request :
  In m modules ->
  not_supplied (query_params request !! "selected_option") ->
  submit_quiz env db (id m) request
    = (db, RedirectResponse ("/modules/" ++ Py.str (id m)) 303 None).
Proof.
  intros Hin Hsel. unfold submit_quiz.
  now rewrite (find_module_in m Hin), (truthy_not_supplied _ Hsel).
Qed.

(** The response to a quiz request with a selection, on a module of the
    catalog: it depends on nothing but the request and the module. *)
Lemma quiz_response env db m request selected :
  In m modules ->
  Py.truthy (query_params request !! "selected_option") = Some selected ->
  submit_quiz env db (id m) request
  = (record_result env db (id m) request
       (String.eqb selected (answer (question m))),
     quiz_result_page request m selected
       (String.eqb selected (answer (question m)))).
Proof.
  intros Hin Hsel. unfold submit_quiz.
  now rewrite (find_module_in m Hin), Hsel.
Qed.

(** C2. The verdict of a quiz submission is the equality of the selected
    option and the module's answer, as strings: [correct] is true exactly
    when the two are the same sequence of characters.  On module 1, whose
    answer is "One gallon", the selection "One gallon" is correct and
    "Two gallons", "one gallon" and "One gallon " are not. *)
Theorem verdict_is_string_equality :
  (forall env db m request selected,
      In m modules ->
      query_params request !! "selected_option" = Some selected ->
      selected <> "" ->
      exists correct context,
        snd (submit_quiz env db (id m) request)
          = TemplateResponse "quiz_result.html" context
        /\ context !! "correct" = Some (VBool correct)
        /\ context !! "selected" = Some (VStr selected)
        /\ context !! "module" = Some (VModule m)
        /\ (correct = true <-> selected = answer (question m)))
  /\ (forall env db request selected,
        query_params request !! "selected_option" = Some selected ->
        exists m,
          find_module 1 = Some m /\ answer (question m) = "One gallon"
          /\ (selected = "One gallon" ->
              snd (submit_quiz env db 1 request)
                = quiz_result_page request m selected true)
          /\ (selected = "Two gallons" \/ selected = "one gallon"
              \/ selected = "One gallon " ->
              snd (submit_quiz env db 1 request)
                = quiz_result_page request m selected false)).
Proof.
  split.
  - intros env db m request selected Hin Hq Hne.
    rewrite (quiz_response env db m request selected Hin)
      by (rewrite Hq; now apply truthy_supplied).
    eexists _, _. split; [reflexivity|].
    repeat split; try apply String.eqb_eq.
  - intros env db request selected Hq.
    destruct (find_module 1) as [m|] eqn:Hm; [|discriminate].
    exists m. split; [reflexivity|].
    assert (answer (question m) = "One gallon") as Hans
        by (vm_compute in Hm; now injection Hm as <-).
    split; [exact Hans|].
    apply find_module_some in Hm as [Hin Hid].
    pose proof (quiz_response env db m request selected Hin) as Hr.
    rewrite Hid, Hans, Hq in Hr.
    split.
    + intros ->. now rewrite Hr.
    + intros [-> | [-> | ->]]; now rewrite Hr.
Qed.

(** What the transaction around an [INSERT] leaves behind. *)
Lemma connect_insert_commit_spec f db stmt db' r :
  connect_insert_commit f db stmt = (db', r) ->
  (db' = db /\ (r = None \/ committed f = false))
  \/ (committed f = true /\ exists rid, r = Some rid /\ stmt db = Some (db', rid)).
Proof.
  unfold connect_insert_commit.
  destruct f; simpl; try (intros [= <- <-]; left; now auto);
    destruct (stmt db) as [[db1 rid]|]; intros [= <- <-]; eauto 6.
Qed.

Lemma connect_insert_commit_uncommitted f db stmt :
  committed f = false -> fst (connect_insert_commit f db stmt) = db.
Proof.
  destruct f; try discriminate; intros _; simpl; try reflexivity.
  now destruct (stmt db) as [[? ?]|].
Qed.

Lemma connect_insert_commit_committed f db stmt :
  committed f = true ->
  connect_insert_commit f db stmt
  = match stmt db with
    | Some (db', rid) => (db', Some rid)
    | None => (db, None)
    end.
Proof. now destruct f. Qed.

(** C5. An onboarding submission that is partial or invalid writes no
    row, sets no cookie and is answered, like any other, with the 303
    redirect to [/modules]: the store is left as it was, whatever the
    storage layer would have done. *)
Theorem invalid_onboarding_ignored env db request :
  invalid_onboarding request ->
  submit_onboarding env db request
    = (db, RedirectResponse "/modules" 303 None).
Proof.
  unfold invalid_onboarding, submit_onboarding, onboarding_try.
  intros [Hf | [Hl | [Hs | (s & Hq & Hint)]]].
  - now rewrite (truthy_not_supplied _ Hf).
  - rewrite (truthy_not_supplied _ Hl).
    now destruct (Py.truthy (query_params request !! "family_size")).
  - rewrite (truthy_not_supplied _ Hs).
    now destruct (Py.truthy (query_params request !! "family_size")),
                 (Py.truthy (query_params request !! "location")).
  - destruct (Py.truthy (query_params request !! "family_size")) as [raw|] eqn:Hraw;
      [|reflexivity].
    apply truthy_some in Hraw as [Hraw _].
    assert (raw = s) as -> by congruence.
    destruct (Py.truthy (query_params request !! "location")); [|reflexivity].
    destruct (Py.truthy (query_params request !! "skill_level")); [|reflexivity].
    destruct Hint as [-> | (n & -> & Hn)]; [reflexivity|].
    now replace (0 <? n) with false by (symmetry; apply Z.ltb_ge; exact Hn).
Qed.

(** The onboarding handler always answers with the redirect. *)
Lemma onboarding_redirects env db request :
  exists cookie,
    snd (submit_onboarding env db request)
      = RedirectResponse "/modules" 303 cookie.
Proof.
  unfold submit_onboarding.
  destruct (onboarding_try env db request) as [db' uid]. simpl. eauto.
Qed.

Lemma record_result_unrecorded env db module_id request correct :
  (cookies request !! "user_id" = None
   \/ (exists s, cookies request !! "user_id" = Some s /\ Py.int s = None)
   \/ committed (fault env) = false) ->
  record_result env db module_id request correct = db.
Proof.
  unfold record_result. intros [-> | [(s & -> & ->) | Hf]]; try reflexivity.
  destruct (cookies request !! "user_id") as [s|]; [|reflexivity].
  destruct (Py.int s); [|reflexivity].
  now apply connect_insert_commit_uncommitted.
Qed.

(** C4. A quiz submission whose write raises (or whose cookie is not
    read as an integer) is answered as one whose write went through: the
    response is [quiz_result.html] rendered with the request, the module,
    the selected option and the verdict (the selection equals the answer),
    whatever the fault, the cookies and the store, and so the same as under
    no fault; it is never an error response.  A write that was not
    committed, like a cookie that is not read as an integer, leaves the
    store as it was.  The onboarding handler, too, answers with its
    redirect under every fault. *)
Theorem storage_fault_swallowed env db m request selected :
  In m modules ->
  Py.truthy (query_params request !! "selected_option") = Some selected ->
  snd (submit_quiz env db (id m) request)
    = TemplateResponse "quiz_result.html"
        (<["request" := VRequest request]>
         (<["module" := VModule m]>
          (<["selected" := VStr selected]>
           (<["correct" :=
                VBool (String.eqb selected (answer (question m)))]> ∅))))
  /\ (forall env' db' request',
        query_params request' = query_params request ->
        snd (submit_quiz env' db' (id m) request')
          = TemplateResponse "quiz_result.html"
              (<["request" := VRequest request']>
               (<["module" := VModule m]>
                (<["selected" := VStr selected]>
                 (<["correct" :=
                      VBool (String.eqb selected (answer (question m)))]> ∅)))))
  /\ snd (submit_quiz env db (id m) request)
     = snd (submit_quiz {| fault := NoFault; now := now env |} db (id m)
              request)
  /\ (forall status detail,
        snd (submit_quiz env db (id m) request) <> HTTPException status detail)
  /\ (committed (fault env) = false
      \/ (exists s, cookies request !! "user_id" = Some s /\ Py.int s = None) ->
      fst (submit_quiz env db (id m) request) = db)
  /\ (exists cookie,
        snd (submit_onboarding env db request)
          = RedirectResponse "/modules" 303 cookie).
Proof.
  intros Hin Hsel.
  assert (forall env' db' request',
            query_params request' = query_params request ->
            snd (submit_quiz env' db' (id m) request')
            = TemplateResponse "quiz_result.html"
                (<["request" := VRequest request']>
                 (<["module" := VModule m]>
                  (<["selected" := VStr selected]>
                   (<["correct" :=
                        VBool (String.eqb selected (answer (question m)))]> ∅)))))
    as Hpage.
  { intros env' db' request' Hq.
    now rewrite (quiz_response env' db' m request' selected Hin)
      by (now rewrite Hq). }
  split; [now apply Hpage|]. split; [exact Hpage|].
  split; [now rewrite !Hpage|].
  split; [intros status detail; now rewrite Hpage|].
  split; [|apply onboarding_redirects].
  intros Hfault.
  rewrite (quiz_response env db m request selected Hin Hsel). simpl.
  apply record_result_unrecorded. tauto.
Qed.

(** ** Row ids *)

Lemma max_rowid_bounds ids :
  0 <= max_rowid ids /\ Forall (fun i => i <= max_rowid ids) ids.
Proof.
  induction ids as [|i ids [IH0 IH]]; simpl; [split; [lia | constructor]|].
  split; [lia|]. constructor; [lia|].
  eapply Forall_impl; [exact IH|]. simpl. lia.
Qed.

Lemma next_rowid_spec seq ids rid :
  next_rowid seq ids = Some rid ->
  seq < rid /\ 0 < rid <= MAX_ROWID /\ Forall (fun i => i < rid) ids.
Proof.
  unfold next_rowid.
  destruct (max_rowid_bounds ids) as [H0 Hall].
  destruct (Z.leb_spec MAX_ROWID (Z.max seq (max_rowid ids))); [discriminate|].
  intros [= <-]. repeat split; try lia.
  eapply Forall_impl; [exact Hall|]. simpl. lia.
Qed.

Lemma insert_user_profile_spec db fs loc sl db' rid :
  insert_user_profile db fs loc sl = Some (db', rid) ->
  db' = {| user_profiles :=
             user_profiles db ++
             [ {| up_id := rid; family_size := fs; location := loc;
                  skill_level := sl |} ];
           user_profiles_seq := rid;
           quiz_results := quiz_results db;
           quiz_results_seq := quiz_results_seq db |}
  /\ next_rowid (user_profiles_seq db) (map up_id (user_profiles db)) = Some rid.
Proof.
  unfold insert_user_profile.
  destruct (fits_int64 fs); [|discriminate].
  destruct (next_rowid _ _) as [r|]; [|discriminate].
  now intros [= <- <-].
Qed.

Lemma insert_quiz_result_spec db now uid mid sc db' rid :
  insert_quiz_result db now uid mid sc = Some (db', rid) ->
  db' = {| user_profiles := user_profiles db;
           user_profiles_seq := user_profiles_seq db;
           quiz_results :=
             quiz_results db ++
             [ {| qr_id := rid; user_id := Some uid; module_id := mid;
                  score := sc; timestamp := now |} ];
           quiz_results_seq := rid |}
  /\ next_rowid (quiz_results_seq db) (map qr_id (quiz_results db)) = Some rid.
Proof.
  unfold insert_quiz_result.
  destruct (_ && _); [|discriminate].
  destruct (next_rowid _ _) as [r|]; [|discriminate].
  now intros [= <- <-].
Qed.

Lemma submit_onboarding_try env db request :
  submit_onboarding env db request
  = (fst (onboarding_try env db request),
     RedirectResponse "/modules" 303
       (option_map
          (fun uid => {| key := "user_id"; value := Py.str uid;
                         max_age := 2592000; httponly := true |})
          (snd (onboarding_try env db request)))).
Proof.
  unfold submit_onboarding.
  now destruct (onboarding_try env db request) as [db' [uid|]].
Qed.

(** The [try] block either leaves the store alone or commits exactly the
    insert whose [lastrowid] it read; an id is also read from an insert
    whose commit raised. *)
Lemma onboarding_try_spec env db request db' r :
  onboarding_try env db request = (db', r) ->
  (db' = db /\ r = None)
  \/ exists fs loc sl dbi uid,
       r = Some uid
       /\ insert_user_profile db fs loc sl = Some (dbi, uid)
       /\ db' = (if committed (fault env) then dbi else db).
Proof.
  unfold onboarding_try.
  destruct (Py.truthy (query_params request !! "family_size")) as [raw|];
    [|intros [= <- <-]; now left].
  destruct (Py.truthy (query_params request !! "location")) as [loc|];
    [|intros [= <- <-]; now left].
  destruct (Py.truthy (query_params request !! "skill_level")) as [sl|];
    [|intros [= <- <-]; now left].
  destruct (Py.int raw) as [fs|]; [|intros [= <- <-]; now left].
  destruct (0 <? fs); [|intros [= <- <-]; now left].
  unfold connect_insert_commit.
  destruct (fault env); simpl; try (intros [= <- <-]; now left);
    destruct (insert_user_profile db fs loc sl) as [[dbi uid]|] eqn:Hins;
    intros [= <- <-]; try (now left); right; eauto 10.
Qed.

Lemma app_last_neq {A} (l : list A) (x : A) : l <> (l ++ [x])%list.
Proof.
  intros Heq. apply (f_equal (@List.length A)) in Heq.
  rewrite List.length_app in Heq. simpl in Heq. lia.
Qed.

(** A written profile row carries the id read from [lastrowid], which is
    positive, above the table's sequence, and is the one put in the
    cookie. *)
Lemma writes_profile_spec env db request uid :
  writes_profile env db request uid ->
  user_profiles_seq db < uid
  /\ 0 < uid <= MAX_ROWID
  /\ user_profiles_seq (fst (submit_onboarding env db request)) = uid
  /\ snd (submit_onboarding env db request)
     = RedirectResponse "/modules" 303
         (Some {| key := "user_id"; value := Py.str uid;
                  max_age := 2592000; httponly := true |}).
Proof.
  intros (p & Hrows & Hid). rewrite submit_onboarding_try in *. simpl in *.
  destruct (onboarding_try env db request) as [db' r] eqn:Htry. simpl in *.
  apply onboarding_try_spec in Htry
    as [[-> ->] | (fs & loc & sl & dbi & rid & -> & Hins & ->)].
  - now destruct (app_last_neq _ _ Hrows).
  - apply insert_user_profile_spec in Hins as [-> Hnext].
    destruct (committed (fault env)); simpl in *.
    + apply app_inj_tail in Hrows as [_ <-]. simpl in Hid. subst rid.
      apply next_rowid_spec in Hnext as (? & ? & _). auto.
    + now destruct (app_last_neq _ _ Hrows).
Qed.

(** ** Recording quiz results *)

Lemma fits_int64_iff n :
  fits_int64 n = true <-> - MAX_ROWID - 1 <= n <= MAX_ROWID.
Proof.
  unfold fits_int64. rewrite andb_true_iff, !Z.leb_le. tauto.
Qed.

(** The cookie branch leaves the store alone or appends one row, whose
    [user_id] is the integer read from the cookie; it never touches
    [user_profiles]. *)
Lemma record_result_cases env db mid request correct :
  record_result env db mid request correct = db
  \/ exists s uid rid,
       cookies request !! "user_id" = Some s
       /\ Py.int s = Some uid
       /\ committed (fault env) = true
       /\ next_rowid (quiz_results_seq db) (map qr_id (quiz_results db))
          = Some rid
       /\ record_result env db mid request correct
          = {| user_profiles := user_profiles db;
               user_profiles_seq := user_profiles_seq db;
               quiz_results :=
                 quiz_results db ++ [result_row rid uid mid correct (now env)];
               quiz_results_seq := rid |}.
Proof.
  unfold record_result.
  destruct (cookies request !! "user_id") as [s|]; [|now left].
  destruct (Py.int s) as [uid|] eqn:Hint; [|now left].
  destruct (connect_insert_commit (fault env) db _) as [db' r] eqn:Hc.
  apply connect_insert_commit_spec in Hc
    as [[-> _] | (Hf & rid & -> & Hins)]; [now left|].
  apply insert_quiz_result_spec in Hins as [-> Hnext].
  right. exists s, uid, rid. repeat split; auto.
Qed.

Lemma record_result_recorded env db mid request correct s uid rid :
  cookies request !! "user_id" = Some s ->
  Py.int s = Some uid ->
  fits_int64 uid = true ->
  fits_int64 mid = true ->
  committed (fault env) = true ->
  next_rowid (quiz_results_seq db) (map qr_id (quiz_results db)) = Some rid ->
  quiz_results (record_result env db mid request correct)
  = (quiz_results db ++ [result_row rid uid mid correct (now env)])%list.
Proof.
  intros Hc Hint Hu Hm Hf Hnext. unfold record_result.
  rewrite Hc, Hint, (connect_insert_commit_committed _ _ _ Hf).
  unfold insert_quiz_result. rewrite Hu, Hm, Hnext.
  now destruct correct.
Qed.

(** The decimal form of a rowid is far below the limit on digits. *)
Lemma rowid_short n : 0 < n <= MAX_ROWID -> Z.abs n < 2 ^ 640.
Proof.
  intros Hn.
  assert (MAX_ROWID < 2 ^ 640) by (vm_compute; reflexivity).
  lia.
Qed.

Lemma module_id_fits m : In m modules -> fits_int64 (id m) = true.
Proof.
  intros Hin. apply module_id_range in Hin.
  apply fits_int64_iff. unfold MAX_ROWID. lia.
Qed.

(** The cookie branch, case by case: the store after it is the store
    before it unless the cookie is read as a 64-bit integer, the write is
    committed and the table has a rowid left. *)
Lemma record_result_spec env db m request correct :
  In m modules ->
  record_result env db (id m) request correct
  = match cookies request !! "user_id" with
    | None => db
    | Some s =>
        match Py.int s with
        | None => db
        | Some uid =>
            if fits_int64 uid && committed (fault env) then
              match next_rowid (quiz_results_seq db)
                               (map qr_id (quiz_results db)) with
              | None => db
              | Some rid =>
                  {| user_profiles := user_profiles db;
                     user_profiles_seq := user_profiles_seq db;
                     quiz_results :=
                       quiz_results db ++
                       [ {| qr_id := rid; user_id := Some uid;
                            module_id := id m;
                            score := if correct then 1 else 0;
                            timestamp := now env |} ];
                     quiz_results_seq := rid |}
              end
            else db
        end
    end.
Proof.
  intros Hin. unfold record_result.
  destruct (cookies request !! "user_id") as [s|]; [|reflexivity].
  destruct (Py.int s) as [uid|]; [|reflexivity].
  unfold connect_insert_commit, insert_quiz_result.
  rewrite (module_id_fits m Hin).
  assert (fits_int64 (if correct then 1 else 0) = true) as ->
      by (now destruct correct).
  destruct (fits_int64 uid), (fault env); simpl; try reflexivity;
    now destruct (next_rowid _ _).
Qed.

(** C1 (as the code has it). On a module of the catalog and with a
    selection, [submit_quiz] always renders the result page, and records
    a result only for a request that carries a [user_id] cookie read as an
    integer: without the cookie, with one that [int()] rejects or reads as
    an integer outside 64 bits, with a write that is not committed or a
    table without a rowid left, the store is left as it was; otherwise
    exactly one row is appended, with the integer of the cookie as
    [user_id], the module id and the score (1 when correct, 0 otherwise).
    So whenever the store changes, the cookie was read as a 64-bit
    integer, the write was committed, and the new row carries that
    integer: no row with a null [user_id] is ever written. *)
Theorem result_recorded_for_cookie_only env db m request selected :
  In m modules ->
  Py.truthy (query_params request !! "selected_option") = Some selected ->
  let correct := String.eqb selected (answer (question m)) in
  let db' := fst (submit_quiz env db (id m) request) in
  snd (submit_quiz env db (id m) request)
    = TemplateResponse "quiz_result.html"
        (<["request" := VRequest request]>
         (<["module" := VModule m]>
          (<["selected" := VStr selected]>
           (<["correct" := VBool correct]> ∅))))
  /\ (cookies request !! "user_id" = None
      \/ (exists s, cookies request !! "user_id" = Some s
                    /\ (Py.int s = None
                        \/ exists uid, Py.int s = Some uid
                                       /\ fits_int64 uid = false))
      \/ committed (fault env) = false
      \/ next_rowid (quiz_results_seq db) (map qr_id (quiz_results db))
         = None ->
      db' = db)
  /\ (forall s uid rid,
        cookies request !! "user_id" = Some s ->
        Py.int s = Some uid ->
        fits_int64 uid = true ->
        committed (fault env) = true ->
        next_rowid (quiz_results_seq db) (map qr_id (quiz_results db))
          = Some rid ->
        db' = {| user_profiles := user_profiles db;
                 user_profiles_seq := user_profiles_seq db;
                 quiz_results :=
                   quiz_results db ++
                   [ {| qr_id := rid; user_id := Some uid; module_id := id m;
                        score := if correct then 1 else 0;
                        timestamp := now env |} ];
                 quiz_results_seq := rid |})
  /\ (db' <> db ->
      exists s uid rid,
        cookies request !! "user_id" = Some s
        /\ Py.int s = Some uid
        /\ fits_int64 uid = true
        /\ committed (fault env) = true
        /\ quiz_results db'
           = (quiz_results db
              ++ [ {| qr_id := rid; user_id := Some uid; module_id := id m;
                      score := if correct then 1 else 0;
                      timestamp := now env |} ])%list).
Proof.
  intros Hin Hsel correct db'. subst db'.
  rewrite (quiz_response env db m request selected Hin Hsel).
  cbn [fst snd]. fold correct.
  rewrite (record_result_spec env db m request correct Hin).
  split; [reflexivity|]. split; [|split].
  - intros [-> | [(s & -> & [-> | (uid & -> & ->)]) | [Hf | Hfull]]];
      try reflexivity.
    + destruct (cookies request !! "user_id") as [s|]; [|reflexivity].
      destruct (Py.int s) as [uid|]; [|reflexivity].
      rewrite Hf. now rewrite andb_false_r.
    + destruct (cookies request !! "user_id") as [s|]; [|reflexivity].
      destruct (Py.int s) as [uid|]; [|reflexivity].
      rewrite Hfull. now destruct (_ && _).
  - intros s uid rid -> -> -> -> ->. reflexivity.
  - destruct (cookies request !! "user_id") as [s|]; [|congruence].
    destruct (Py.int s) as [uid|] eqn:Hint; [|congruence].
    destruct (fits_int64 uid) eqn:Hfits; [|simpl; congruence].
    destruct (committed (fault env)) eqn:Hf; [|simpl; congruence]. simpl.
    destruct (next_rowid _ _) as [rid|]; [|congruence].
    intros _. exists s, uid, rid. repeat split; assumption || reflexivity.
Qed.

(** C3 (as the code has it). Round trip of the session identity.  When
    the onboarding handler sets a cookie, the cookie is [user_id] and its
    value is the decimal form of the id read from [lastrowid], which is
    the id of the profile row if the insert was committed.  A later quiz
    submission presenting that cookie, on a module of the catalog and with
    a selection, appends the row with that [user_id] (the module id and
    the score) when its write is committed and the table has a rowid left,
    and leaves the store as it was when the write is not committed or no
    rowid is left: it writes no row with another [user_id]. *)
Theorem session_round_trip env db request cookie :
  snd (submit_onboarding env db request)
    = RedirectResponse "/modules" 303 (Some cookie) ->
  exists uid,
    key cookie = "user_id" /\ value cookie = Py.str uid
    /\ (committed (fault env) = true -> writes_profile env db request uid)
    /\ forall env2 db2 m request2 selected,
         In m modules ->
         Py.truthy (query_params request2 !! "selected_option")
           = Some selected ->
         cookies request2 !! key cookie = Some (value cookie) ->
         let correct := String.eqb selected (answer (question m)) in
         let db2' := fst (submit_quiz env2 db2 (id m) request2) in
         (forall rid,
             committed (fault env2) = true ->
             next_rowid (quiz_results_seq db2)
                        (map qr_id (quiz_results db2)) = Some rid ->
             db2' = {| user_profiles := user_profiles db2;
                       user_profiles_seq := user_profiles_seq db2;
                       quiz_results :=
                         quiz_results db2 ++
                         [ {| qr_id := rid; user_id := Some uid;
                              module_id := id m;
                              score := if correct then 1 else 0;
                              timestamp := now env2 |} ];
                       quiz_results_seq := rid |})
         /\ (committed (fault env2) = false
             \/ next_rowid (quiz_results_seq db2)
                           (map qr_id (quiz_results db2)) = None ->
             db2' = db2)
         /\ (quiz_results db2' = quiz_results db2
             \/ exists rid,
                  quiz_results db2'
                    = (quiz_results db2
                       ++ [ {| qr_id := rid; user_id := Some uid;
                               module_id := id m;
                               score := if correct then 1 else 0;
                               timestamp := now env2 |} ])%list).
Proof.
  rewrite submit_onboarding_try. simpl.
  destruct (onboarding_try env db request) as [db1 r] eqn:Htry. simpl.
  destruct r as [uid|]; [|discriminate]. intros [= <-]. simpl.
  exists uid. split; [reflexivity|]. split; [reflexivity|].
  destruct (onboarding_try_spec _ _ _ _ _ Htry)
    as [[_ [=]] | (fs & loc & sl & dbi & uid' & [= <-] & Hins & Hdb1)].
  apply insert_user_profile_spec in Hins as [-> Hnext].
  apply next_rowid_spec in Hnext as (_ & Hrange & _).
  assert (fits_int64 uid = true) as Hfits
      by (apply fits_int64_iff; unfold MAX_ROWID in *; lia).
  pose proof (PyFacts.int_str uid (rowid_short uid Hrange)) as Hread.
  split.
  - intros Hf. unfold writes_profile.
    rewrite submit_onboarding_try, Htry, Hdb1, Hf. simpl. eauto.
  - intros env2 db2 m request2 selected Hin Hsel Hcookie.
    rewrite (quiz_response env2 db2 m request2 selected Hin Hsel).
    cbn [fst].
    rewrite (record_result_spec env2 db2 m request2 _ Hin).
    rewrite Hcookie, Hread, Hfits. simpl.
    split; [|split].
    + intros rid -> ->. reflexivity.
    + intros [-> | ->]; [reflexivity|].
      now destruct (committed (fault env2)).
    + destruct (committed (fault env2)); [|now left].
      destruct (next_rowid _ _) as [rid|]; [|now left].
      right. now exists rid.
Qed.

(** ** Profile ids over the life of the store *)

Lemma record_result_profiles env db mid request correct :
  user_profiles (record_result env db mid request correct) = user_profiles db
  /\ user_profiles_seq (record_result env db mid request correct)
     = user_profiles_seq db.
Proof.
  destruct (record_result_cases env db mid request correct)
    as [-> | (s & uid & rid & _ & _ & _ & _ & ->)]; now split.
Qed.

Lemma submit_quiz_profiles env db module_id request :
  user_profiles (fst (submit_quiz env db module_id request)) = user_profiles db
  /\ user_profiles_seq (fst (submit_quiz env db module_id request))
     = user_profiles_seq db.
Proof.
  unfold submit_quiz.
  destruct (find_module module_id); [|now split].
  destruct (Py.truthy _); [|now split].
  apply record_result_profiles.
Qed.

(** What one request does to [user_profiles]: nothing, or one row added
    at the end with an id above the sequence, which becomes the
    sequence. *)
Lemma handle_profiles db c :
  (user_profiles (fst (handle db c)) = user_profiles db
   /\ user_profiles_seq (fst (handle db c)) = user_profiles_seq db)
  \/ exists p,
       user_profiles (fst (handle db c)) = (user_profiles db ++ [p])%list
       /\ user_profiles_seq (fst (handle db c)) = up_id p
       /\ next_rowid (user_profiles_seq db) (map up_id (user_profiles db))
          = Some (up_id p).
Proof.
  destruct c as [r | env r | r | mid r | env mid r | r | r]; simpl; auto.
  - rewrite submit_onboarding_try. simpl.
    destruct (onboarding_try env db r) as [db' o] eqn:Htry. simpl.
    apply onboarding_try_spec in Htry
      as [[-> _] | (fs & loc & sl & dbi & uid & _ & Hins & ->)]; [now left|].
    destruct (committed (fault env)); [|now left].
    apply insert_user_profile_spec in Hins as [-> Hnext].
    right. eexists. simpl. split; [reflexivity|]. now split.
  - left. apply submit_quiz_profiles.
Qed.

Lemma handle_seq_mono db c :
  user_profiles_seq db <= user_profiles_seq (fst (handle db c)).
Proof.
  destruct (handle_profiles db c) as [[_ ->] | (p & _ & -> & Hnext)]; [lia|].
  apply next_rowid_spec in Hnext. lia.
Qed.

Lemma serve_seq_mono calls : forall db,
  user_profiles_seq db <= user_profiles_seq (serve db calls).
Proof.
  induction calls as [|c calls IH]; intros db; simpl; [lia|].
  etransitivity; [apply (handle_seq_mono db c) | apply IH].
Qed.

Lemma StronglySorted_snoc (l : list Z) (x : Z) :
  StronglySorted Z.lt l -> Forall (fun y => y < x) l ->
  StronglySorted Z.lt (l ++ [x]).
Proof.
  induction 1 as [|y l Hl IH Hy]; intros Hx; simpl.
  - repeat constructor.
  - inversion_clear Hx as [|? ? Hyx Hlx].
    constructor; [now apply IH|].
    apply Forall_app. split; [exact Hy | now constructor].
Qed.

Lemma handle_ordered db c :
  profiles_ordered db -> profiles_ordered (fst (handle db c)).
Proof.
  intros [Hsorted Hrange]. unfold profiles_ordered.
  destruct (handle_profiles db c) as [[-> ->] | (p & -> & -> & Hnext)];
    [now split|].
  apply next_rowid_spec in Hnext as (Hseq & Hpos & Hlt).
  rewrite map_app. simpl. split.
  - now apply StronglySorted_snoc.
  - apply Forall_app. split; [|repeat constructor; lia].
    eapply Forall_impl; [exact Hrange|]. simpl. lia.
Qed.

(** From the store [init_db] sets up, whatever requests are served, the
    profile ids stay positive and strictly increasing: none is given
    twice. *)
Theorem profile_ids_sorted (calls : list Call) :
  profiles_ordered (serve (init_db None) calls).
Proof.
  assert (forall db, profiles_ordered db -> profiles_ordered (serve db calls))
    as Hserve.
  { induction calls as [|c calls IH]; intros db Hdb; simpl; [exact Hdb|].
    now apply IH, handle_ordered. }
  apply Hserve. split; constructor.
Qed.

(** C9. Every profile row written by an onboarding submission gets a
    positive id, which is the one handed out in the cookie, and a later
    onboarding submission that writes a row, with whatever arguments and
    after whatever requests in between, gets a strictly greater id. *)
Theorem profile_ids_increase env1 env2 db request1 request2 calls uid1 uid2 :
  writes_profile env1 db request1 uid1 ->
  writes_profile env2
    (serve (fst (submit_onboarding env1 db request1)) calls) request2 uid2 ->
  0 < uid1 /\ uid1 < uid2
  /\ snd (submit_onboarding env1 db request1)
     = RedirectResponse "/modules" 303
         (Some {| key := "user_id"; value := Py.str uid1;
                  max_age := 2592000; httponly := true |}).
Proof.
  intros H1 H2.
  apply writes_profile_spec in H1 as (_ & Hpos & Hseq & Hcookie).
  apply writes_profile_spec in H2 as (Hlt & _).
  pose proof (serve_seq_mono calls (fst (submit_onboarding env1 db request1))).
  repeat split; [lia | lia | exact Hcookie].
Qed.

End HandlerProperties.

(** ** The properties on concrete requests *)

Section Examples.

#[local] Existing Instance Py.default_runtime.

Import Sample.

Lemma answer_among_options_witness :
  In home_kit modules
  /\ In "One gallon" ["Half a gallon"; "One gallon"; "Two gallons"].
Proof.
  assert (In home_kit modules) as Hin by (now left).
  split; [exact Hin | exact (answer_among_options home_kit Hin)].
Defined.

(** [/modules/999/quiz?selected_option=X] *)
Lemma unknown_module_not_found_witness :
  (forall m, In m modules -> id m <> 999)
  /\ module_detail 999 (get [] []) = HTTPException 404 "Module not found"
  /\ submit_quiz (env NoFault) empty_db 999 (answer_with "X" [])
     = (empty_db, HTTPException 404 "Module not found").
Proof.
  assert (forall m, In m modules -> id m <> 999) as Hno
      by (intros m Hin; apply module_id_range in Hin; lia).
  split; [exact Hno|]. split.
  - exact (proj1 (unknown_module_not_found (env NoFault) empty_db 999
                    (get [] []) Hno)).
  - exact (proj2 (unknown_module_not_found (env NoFault) empty_db 999
                    (answer_with "X" []) Hno)).
Defined.

(** [/modules/999/quiz] *)
Lemma unknown_module_before_missing_selection_witness :
  (forall m, In m modules -> id m <> 999)
  /\ not_supplied (query_params (get [] []) !! "selected_option")
  /\ snd (submit_quiz (env NoFault) empty_db 999 (get [] []))
     = HTTPException 404 "Module not found".
Proof.
  assert (forall m, In m modules -> id m <> 999) as Hno
      by (intros m Hin; apply module_id_range in Hin; lia).
  assert (not_supplied (query_params (get [] []) !! "selected_option"))
    as Hsel by (left; reflexivity).
  split; [exact Hno|]. split; [exact Hsel|].
  exact (proj1 (unknown_module_before_missing_selection (env NoFault)
                  empty_db 999 (get [] []) Hno Hsel)).
Defined.

(** [/modules/1/quiz] *)
Lemma missing_selection_redirects_witness :
  In home_kit modules
  /\ not_supplied (query_params (get [] [("user_id", "1")]) !! "selected_option")
  /\ submit_quiz (env NoFault) empty_db 1 (get [] [("user_id", "1")])
     = (empty_db, RedirectResponse "/modules/1" 303 None).
Proof.
  assert (In home_kit modules) as Hin by (now left).
  assert (not_supplied
            (query_params (get [] [("user_id", "1")]) !! "selected_option"))
    as Hsel by (left; reflexivity).
  split; [exact Hin|]. split; [exact Hsel|].
  exact (missing_selection_redirects (env NoFault) empty_db home_kit
           (get [] [("user_id", "1")]) Hin Hsel).
Defined.

(** [/modules/1/quiz?selected_option=Two%20gallons] *)
Lemma verdict_is_string_equality_witness :
  In home_kit modules
  /\ query_params (answer_with "Two gallons" []) !! "selected_option"
     = Some "Two gallons"
  /\ "Two gallons" <> ""
  /\ exists correct context,
       snd (submit_quiz (env NoFault) empty_db 1 (answer_with "Two gallons" []))
         = TemplateResponse "quiz_result.html" context
       /\ context !! "correct" = Some (VBool correct)
       /\ context !! "selected" = Some (VStr "Two gallons")
       /\ context !! "module" = Some (VModule home_kit)
       /\ (correct = true <-> "Two gallons" = "One gallon").
Proof.
  assert (In home_kit modules) as Hin by (now left).
  assert ("Two gallons" <> "") as Hne by discriminate.
  split; [exact Hin|]. split; [reflexivity|]. split; [exact Hne|].
  exact (proj1 verdict_is_string_equality (env NoFault) empty_db home_kit
           (answer_with "Two gallons" []) "Two gallons" Hin eq_refl Hne).
Defined.

(** [/onboarding?family_size=0&location=Portland&skill_level=beginner] *)
Lemma invalid_onboarding_ignored_witness :
  invalid_onboarding
    (get [("family_size", "0"); ("location", "Portland");
          ("skill_level", "beginner")] [])
  /\ submit_onboarding (env NoFault) empty_db
       (get [("family_size", "0"); ("location", "Portland");
             ("skill_level", "beginner")] [])
     = (empty_db, RedirectResponse "/modules" 303 None).
Proof.
  assert (invalid_onboarding
            (get [("family_size", "0"); ("location", "Portland");
                  ("skill_level", "beginner")] [])) as Hinv.
  { right. right. right. exists "0". split; [reflexivity|].
    right. exists 0. split; [reflexivity | lia]. }
  split; [exact Hinv|].
  exact (invalid_onboarding_ignored (env NoFault) empty_db _ Hinv).
Defined.

(** The answer of profile 1 to module 1 when [execute] raises: the same
    page as when the write goes through, and no row. *)
Lemma storage_fault_swallowed_witness :
  In home_kit modules
  /\ Py.truthy (query_params (answer_with "One gallon" [("user_id", "1")])
                  !! "selected_option") = Some "One gallon"
  /\ snd (submit_quiz (env ExecuteFails) empty_db 1
            (answer_with "One gallon" [("user_id", "1")]))
     = TemplateResponse "quiz_result.html"
         (<["request" := VRequest (answer_with "One gallon" [("user_id", "1")])]>
          (<["module" := VModule home_kit]>
           (<["selected" := VStr "One gallon"]>
            (<["correct" := VBool true]> ∅))))
  /\ snd (submit_quiz (env ExecuteFails) empty_db 1
            (answer_with "One gallon" [("user_id", "1")]))
     = snd (submit_quiz (env NoFault) empty_db 1
              (answer_with "One gallon" [("user_id", "1")]))
  /\ fst (submit_quiz (env ExecuteFails) empty_db 1
            (answer_with "One gallon" [("user_id", "1")])) = empty_db
  /\ fst (submit_quiz (env NoFault) empty_db 1
            (answer_with "One gallon" [("user_id", "1")])) <> empty_db.
Proof.
  assert (In home_kit modules) as Hin by (now left).
  pose proof (storage_fault_swallowed (env ExecuteFails) empty_db home_kit
                (answer_with "One gallon" [("user_id", "1")])
                "One gallon" Hin eq_refl) as (Hpage & _ & Hsame & _ & Hdb & _).
  split; [exact Hin|]. split; [reflexivity|].
  split; [exact Hpage|]. split; [exact Hsame|].
  split; [apply Hdb; left; reflexivity | discriminate].
Defined.

(** C1, as stated, fails: a correct answer to module 1 sent without a
    cookie, or with a cookie that is not a number, adds no row to
    [quiz_results]. *)
Lemma anonymous_answer_not_recorded :
  ~ (exists row,
        quiz_results
          (fst (submit_quiz (env NoFault) empty_db 1
                  (answer_with "One gallon" [])))
        = (quiz_results empty_db ++ [row])%list)
  /\ ~ (exists row,
          quiz_results
            (fst (submit_quiz (env NoFault) empty_db 1
                    (answer_with "One gallon" [("user_id", "abc")])))
          = (quiz_results empty_db ++ [row])%list).
Proof.
  split; intros [row Hrow]; vm_compute in Hrow; discriminate Hrow.
Qed.

(** The answer of profile 7 to module 1 is recorded. *)
Lemma result_recorded_for_cookie_only_witness :
  In home_kit modules
  /\ Py.truthy (query_params (answer_with "One gallon" [("user_id", "7")])
                  !! "selected_option") = Some "One gallon"
  /\ fst (submit_quiz (env NoFault) empty_db 1
            (answer_with "One gallon" [("user_id", "7")]))
     = {| user_profiles := []; user_profiles_seq := 0;
          quiz_results :=
            [ {| qr_id := 1; user_id := Some 7; module_id := 1; score := 1;
                 timestamp := "2025-06-01 12:00:00" |} ];
          quiz_results_seq := 1 |}.
Proof.
  assert (In home_kit modules) as Hin by (now left).
  split; [exact Hin|]. split; [reflexivity|].
  exact (proj1 (proj2 (proj2 (result_recorded_for_cookie_only (env NoFault)
                                empty_db home_kit
                                (answer_with "One gallon" [("user_id", "7")])
                                "One gallon" Hin eq_refl)))
           "7" 7 1 eq_refl eq_refl eq_refl eq_refl eq_refl).
Defined.

(** Onboarding in Portland on a fresh store, then a wrong answer to
    module 1 with the cookie received. *)
Lemma session_round_trip_witness :
  snd (submit_onboarding (env NoFault) empty_db portland)
    = RedirectResponse "/modules" 303
        (Some {| key := "user_id"; value := "1"; max_age := 2592000;
                 httponly := true |})
  /\ quiz_results
       (fst (submit_quiz (env NoFault)
               (fst (submit_onboarding (env NoFault) empty_db portland)) 1
               (answer_with "Two gallons" [("user_id", "1")])))
     = [ {| qr_id := 1; user_id := Some 1; module_id := 1; score := 0;
            timestamp := "2025-06-01 12:00:00" |} ].
Proof.
  assert (snd (submit_onboarding (env NoFault) empty_db portland)
          = RedirectResponse "/modules" 303
              (Some {| key := "user_id"; value := "1"; max_age := 2592000;
                       httponly := true |})) as Hcookie by reflexivity.
  split; [exact Hcookie|].
  destruct (session_round_trip _ _ _ _ Hcookie) as (uid & _ & _ & Hw & Hquiz).
  assert (uid = 1) as ->.
  { destruct (Hw eq_refl) as (p & Hp & <-).
    apply app_inj_tail in Hp as [_ <-]. reflexivity. }
  exact (f_equal quiz_results
           (proj1 (Hquiz (env NoFault)
                     (fst (submit_onboarding (env NoFault) empty_db portland))
                     home_kit (answer_with "Two gallons" [("user_id", "1")])
                     "Two gallons" (or_introl eq_refl) eq_refl eq_refl)
              1 eq_refl eq_refl)).
Defined.

(** C3, as stated, fails: the id 1 is issued in the cookie by an
    onboarding that wrote profile 1, and the quiz submission presenting
    that cookie writes no row at all when its [commit], or its
    [execute], raises. *)
Lemma round_trip_broken_by_write_fault :
  snd (submit_onboarding (env NoFault) empty_db portland)
    = RedirectResponse "/modules" 303
        (Some {| key := "user_id"; value := "1"; max_age := 2592000;
                 httponly := true |})
  /\ writes_profile (env NoFault) empty_db portland 1
  /\ ~ (exists row,
          quiz_results
            (fst (submit_quiz (env CommitFails)
                    (fst (submit_onboarding (env NoFault) empty_db portland))
                    1 (answer_with "One gallon" [("user_id", "1")])))
          = (quiz_results
               (fst (submit_onboarding (env NoFault) empty_db portland))
             ++ [row])%list)
  /\ ~ (exists row,
          quiz_results
            (fst (submit_quiz (env ExecuteFails)
                    (fst (submit_onboarding (env NoFault) empty_db portland))
                    1 (answer_with "One gallon" [("user_id", "1")])))
          = (quiz_results
               (fst (submit_onboarding (env NoFault) empty_db portland))
             ++ [row])%list).
Proof.
  split; [reflexivity|]. split; [eexists; split; reflexivity|].
  split; intros [row Hrow]; vm_compute in Hrow; discriminate Hrow.
Qed.

(** Two onboardings with the same arguments, a quiz answer in between:
    ids 1 and 2. *)
Lemma profile_ids_increase_witness :
  writes_profile (env NoFault) empty_db portland 1
  /\ writes_profile (env NoFault)
       (serve (fst (submit_onboarding (env NoFault) empty_db portland))
          [GetQuiz (env NoFault) 1 (answer_with "One gallon" [("user_id", "1")])])
       portland 2
  /\ 1 < 2
  /\ snd (submit_onboarding (env NoFault) empty_db portland)
     = RedirectResponse "/modules" 303
         (Some {| key := "user_id"; value := Py.str 1; max_age := 2592000;
                  httponly := true |}).
Proof.
  assert (writes_profile (env NoFault) empty_db portland 1) as H1
      by (eexists; split; reflexivity).
  assert (writes_profile (env NoFault)
            (serve (fst (submit_onboarding (env NoFault) empty_db portland))
               [GetQuiz (env NoFault) 1
                  (answer_with "One gallon" [("user_id", "1")])])
            portland 2) as H2
      by (eexists; split; reflexivity).
  split; [exact H1|]. split; [exact H2|].
  exact (proj2 (profile_ids_increase _ _ _ _ _ _ _ _ H1 H2)).
Defined.

End Examples.

(** * Further properties of the handlers and of the store *)

Section StoreProperties.

Context `{rt : Py.Runtime}.

Lemma int_empty : Py.int "" = None.
Proof. reflexivity. Qed.

(** The [try] block of the onboarding handler, with what it requires of
    the form before it inserts. *)
Lemma onboarding_try_valid env db request db' r :
  onboarding_try env db request = (db', r) ->
  (db' = db /\ r = None)
  \/ exists raw fs loc sl dbi uid,
       query_params request !! "family_size" = Some raw
       /\ Py.int raw = Some fs /\ 0 < fs
       /\ query_params request !! "location" = Some loc /\ loc <> ""
       /\ query_params request !! "skill_level" = Some sl /\ sl <> ""
       /\ fault env <> ConnectFails /\ fault env <> ExecuteFails
       /\ r = Some uid
       /\ insert_user_profile db fs loc sl = Some (dbi, uid)
       /\ db' = (if committed (fault env) then dbi else db).
Proof.
  unfold onboarding_try.
  destruct (Py.truthy (query_params request !! "family_size")) as [raw|] eqn:Hraw;
    [|intros [= <- <-]; now left].
  destruct (Py.truthy (query_params request !! "location")) as [loc|] eqn:Hloc;
    [|intros [= <- <-]; now left].
  destruct (Py.truthy (query_params request !! "skill_level")) as [sl|] eqn:Hsl;
    [|intros [= <- <-]; now left].
  apply truthy_some in Hraw as [Hraw _].
  apply truthy_some in Hloc as [Hloc Hloc'].
  apply truthy_some in Hsl as [Hsl Hsl'].
  destruct (Py.int raw) as [fs|] eqn:Hint; [|intros [= <- <-]; now left].
  destruct (Z.ltb_spec 0 fs) as [Hpos|_]; [|intros [= <- <-]; now left].
  unfold connect_insert_commit.
  destruct (fault env) eqn:Hf; simpl; try (intros [= <- <-]; now left);
    destruct (insert_user_profile db fs loc sl) as [[dbi uid]|] eqn:Hins;
    intros [= <- <-]; try (now left); right;
    exists raw, fs, loc, sl, dbi, uid; repeat split; auto; discriminate.
Qed.

Lemma record_result_step env db m request correct :
  In m modules ->
  store_step db (record_result env db (id m) request correct).
Proof.
  intros Hin. unfold record_result.
  destruct (cookies request !! "user_id") as [s|]; [|constructor].
  destruct (Py.int s) as [uid|]; [|constructor].
  destruct (connect_insert_commit (fault env) db _) as [db' r] eqn:Hc.
  apply connect_insert_commit_spec in Hc
    as [[-> _] | (_ & rid & -> & Hins)]; [constructor|].
  simpl. now apply (step_result db (now env) uid m correct db' rid).
Qed.

(** Every handler is one step of the store. *)
Lemma handle_store_step db c : store_step db (fst (handle db c)).
Proof.
  destruct c as [r | env r | r | mid r | env mid r | r | r]; simpl;
    try constructor.
  - rewrite submit_onboarding_try. simpl.
    destruct (onboarding_try env db r) as [db' o] eqn:Htry. simpl.
    apply onboarding_try_valid in Htry
      as [[-> _] | (raw & fs & loc & sl & dbi & uid & _ & _ & Hpos & _ & Hloc
                    & _ & Hsl & _ & _ & _ & Hins & ->)]; [constructor|].
    destruct (committed (fault env)); [|constructor].
    now apply (step_profile db fs loc sl dbi uid).
  - unfold submit_quiz.
    destruct (find_module mid) as [m|] eqn:Hm; [|constructor].
    apply find_module_some in Hm as [Hin <-].
    destruct (Py.truthy _); [|constructor].
    now apply record_result_step.
Qed.

(** A property of stores kept by every step holds after any run. *)
Lemma serve_preserves (P : DB -> Prop) :
  (forall db db', store_step db db' -> P db -> P db') ->
  forall calls db, P db -> P (serve db calls).
Proof.
  intros Hstep calls.
  induction calls as [|c calls IH]; intros db Hdb; simpl; [exact Hdb|].
  apply IH, (Hstep db); [apply handle_store_step | exact Hdb].
Qed.

Lemma submit_onboarding_results env db request :
  quiz_results (fst (submit_onboarding env db request)) = quiz_results db
  /\ quiz_results_seq (fst (submit_onboarding env db request))
     = quiz_results_seq db.
Proof.
  rewrite submit_onboarding_try. simpl.
  destruct (onboarding_try env db request) as [db' o] eqn:Htry. simpl.
  apply onboarding_try_spec in Htry
    as [[-> _] | (fs & loc & sl & dbi & uid & _ & Hins & ->)];
    [now split|].
  apply insert_user_profile_spec in Hins as [-> _].
  now destruct (committed (fault env)).
Qed.

(** X6. Each writing handler touches its own table only: an onboarding
    submission leaves [quiz_results] and its sequence as they were, a quiz
    submission leaves [user_profiles] and its sequence as they were. *)
Theorem handlers_keep_other_table env db module_id request :
  quiz_results (fst (submit_onboarding env db request)) = quiz_results db
  /\ quiz_results_seq (fst (submit_onboarding env db request))
     = quiz_results_seq db
  /\ user_profiles (fst (submit_quiz env db module_id request))
     = user_profiles db
  /\ user_profiles_seq (fst (submit_quiz env db module_id request))
     = user_profiles_seq db.
Proof.
  destruct (submit_onboarding_results env db request) as [Hq Hs].
  destruct (submit_quiz_profiles env db module_id request) as [Hp Hs'].
  auto.
Qed.

(** One step only appends. *)
Lemma store_step_appends db db' :
  store_step db db' ->
  user_profiles db `prefix_of` user_profiles db'
  /\ quiz_results db `prefix_of` quiz_results db'.
Proof.
  intros [|fs loc sl db1 rid _ _ _ Hins|now0 uid m correct db1 rid _ Hins].
  - split; reflexivity.
  - apply insert_user_profile_spec in Hins as [-> _]. simpl.
    split; [now apply prefix_app_r | reflexivity].
  - apply insert_quiz_result_spec in Hins as [-> _]. simpl.
    split; [reflexivity | now apply prefix_app_r].
Qed.

(** X7. The store is append-only: whatever requests are served, the
    rows both tables held before are still there, unchanged and in the same
    order, at the head of the tables. *)
Theorem store_append_only db calls :
  user_profiles db `prefix_of` user_profiles (serve db calls)
  /\ quiz_results db `prefix_of` quiz_results (serve db calls).
Proof.
  apply (serve_preserves
           (fun db' => user_profiles db `prefix_of` user_profiles db'
                       /\ quiz_results db `prefix_of` quiz_results db')).
  - intros db1 db2 Hstep [Hp Hq].
    apply store_step_appends in Hstep as [Hp' Hq'].
    split; etransitivity; eassumption.
  - split; reflexivity.
Qed.

(** X8. A request adds one row at most, and only to the table of its
    handler: after any run the number of profiles has grown by no more
    than the number of onboarding submissions, the number of results by no
    more than the number of quiz submissions. *)
Theorem rows_bounded_by_requests calls : forall db,
  (List.length (user_profiles (serve db calls))
   <= List.length (user_profiles db) + onboardings calls)%nat
  /\ (List.length (quiz_results (serve db calls))
      <= List.length (quiz_results db) + quizzes calls)%nat.
Proof.
  induction calls as [|c calls IH]; intros db.
  - unfold onboardings, quizzes. simpl. lia.
  - change (serve db (c :: calls)) with (serve (fst (handle db c)) calls).
    destruct (IH (fst (handle db c))) as [IHp IHq].
    assert ((List.length (user_profiles (fst (handle db c)))
             + onboardings calls
             <= List.length (user_profiles db) + onboardings (c :: calls))%nat
            /\ (List.length (quiz_results (fst (handle db c)))
                + quizzes calls
                <= List.length (quiz_results db) + quizzes (c :: calls))%nat)
      as [Hp Hq]; [|lia].
    destruct c as [r | env r | r | mid r | env mid r | r | r];
      unfold onboardings, quizzes; cbn [handle fst List.filter List.length];
      try lia.
    + destruct (submit_onboarding_results env db r) as (-> & _).
      destruct (handle_profiles db (GetOnboarding env r))
        as [[Hsame _] | (p & Hadd & _)]; simpl in *.
      * rewrite Hsame. lia.
      * rewrite Hadd, List.length_app. simpl. lia.
    + destruct (submit_quiz_profiles env db mid r) as [-> _].
      split; [lia|].
      pose proof (handle_store_step db (GetQuiz env mid r)) as Hstep.
      simpl in Hstep.
      destruct Hstep as [|fs loc sl db1 rid _ _ _ Hins
                         |now0 uid m correct db1 rid _ Hins].
      * lia.
      * apply insert_user_profile_spec in Hins as [-> _]. simpl. lia.
      * apply insert_quiz_result_spec in Hins as [-> _]. simpl.
        rewrite List.length_app. simpl. lia.
Qed.

(** ** Invariants of the store *)

Lemma max_rowid_le ids n :
  0 <= n -> Forall (fun i => i <= n) ids -> max_rowid ids <= n.
Proof. induction 2; simpl; lia. Qed.

(** The next rowid of a table numbered 1..n is n+1. *)
Lemma next_rowid_numbered ids seq rid :
  numbered ids seq -> next_rowid seq ids = Some rid ->
  rid = seq + 1 /\ numbered (ids ++ [rid]) rid.
Proof.
  intros [Hids ->] Hnext. unfold next_rowid in Hnext.
  assert (max_rowid ids <= Z.of_nat (List.length ids)) as Hmax.
  { apply max_rowid_le; [lia|]. rewrite Hids at 1.
    apply Forall_seqZ. intros; lia. }
  rewrite Z.max_l in Hnext by exact Hmax.
  destruct (MAX_ROWID <=? _); [discriminate|]. injection Hnext as <-.
  split; [reflexivity|]. unfold numbered.
  rewrite List.length_app. simpl.
  replace (List.length ids + 1)%nat with (S (List.length ids)) by lia.
  rewrite seqZ_S, <- Hids. split; [f_equal; f_equal; lia | lia].
Qed.

Lemma store_step_numbered db db' :
  store_step db db' ->
  numbered (map up_id (user_profiles db)) (user_profiles_seq db)
  /\ numbered (map qr_id (quiz_results db)) (quiz_results_seq db) ->
  numbered (map up_id (user_profiles db')) (user_profiles_seq db')
  /\ numbered (map qr_id (quiz_results db')) (quiz_results_seq db').
Proof.
  intros [|fs loc sl db1 rid _ _ _ Hins|now0 uid m correct db1 rid _ Hins]
         [Hp Hq]; [now split| |].
  - apply insert_user_profile_spec in Hins as [-> Hnext]. simpl.
    rewrite map_app. split; [|exact Hq].
    now apply (next_rowid_numbered _ _ _ Hp).
  - apply insert_quiz_result_spec in Hins as [-> Hnext]. simpl.
    rewrite map_app. split; [exact Hp|].
    now apply (next_rowid_numbered _ _ _ Hq).
Qed.

(** X9. From the store [init_db] sets up, whatever requests are served,
    the ids of both tables are 1, 2, ..., n in insertion order, without a
    gap, and the sequence of each table is its number of rows: an insert
    that is not committed uses up no id. *)
Theorem ids_without_gaps (calls : list Call) :
  numbered (map up_id (user_profiles (serve (init_db None) calls)))
           (user_profiles_seq (serve (init_db None) calls))
  /\ numbered (map qr_id (quiz_results (serve (init_db None) calls)))
              (quiz_results_seq (serve (init_db None) calls)).
Proof.
  apply (serve_preserves
           (fun db => numbered (map up_id (user_profiles db))
                               (user_profiles_seq db)
                      /\ numbered (map qr_id (quiz_results db))
                                  (quiz_results_seq db))).
  - exact store_step_numbered.
  - now split.
Qed.

Lemma insert_user_profile_fits db fs loc sl r :
  insert_user_profile db fs loc sl = Some r -> fits_int64 fs = true.
Proof. unfold insert_user_profile. now destruct (fits_int64 fs). Qed.

Lemma insert_quiz_result_fits db now0 uid mid sc r :
  insert_quiz_result db now0 uid mid sc = Some r -> fits_int64 uid = true.
Proof. unfold insert_quiz_result. now destruct (fits_int64 uid). Qed.

(** X10. From the store [init_db] sets up, whatever requests are served,
    every stored profile has a positive [family_size] (a 64-bit integer)
    and a [location] and a [skill_level] that are not empty, and every
    stored quiz result names a module of the catalog, has score 0 or 1 and
    a [user_id] that is not null. *)
Theorem stored_rows_valid (calls : list Call) :
  Forall valid_profile (user_profiles (serve (init_db None) calls))
  /\ Forall valid_result (quiz_results (serve (init_db None) calls)).
Proof.
  apply (serve_preserves
           (fun db => Forall valid_profile (user_profiles db)
                      /\ Forall valid_result (quiz_results db))).
  - intros db db'
      [|fs loc sl db1 rid Hpos Hloc Hsl Hins|now0 uid m correct db1 rid Hin Hins]
      [Hp Hq]; [now split| |].
    + pose proof (insert_user_profile_fits _ _ _ _ _ Hins) as Hfits.
      apply fits_int64_iff in Hfits.
      apply insert_user_profile_spec in Hins as [-> _]. simpl.
      split; [|exact Hq].
      apply Forall_app. split; [exact Hp|].
      constructor; [|constructor]. unfold valid_profile. simpl.
      split; [lia | now split].
    + pose proof (insert_quiz_result_fits _ _ _ _ _ _ Hins) as Hfits.
      apply insert_quiz_result_spec in Hins as [-> _]. simpl.
      split; [exact Hp|].
      apply Forall_app. split; [exact Hq|].
      constructor; [|constructor]. unfold valid_result. simpl.
      split; [now exists m|]. split; [destruct correct; auto | eauto].
  - split; constructor.
Qed.

(** ** The onboarding form *)

Lemma int_some_nonempty raw n : Py.int raw = Some n -> raw <> "".
Proof. intros Hint ->. now rewrite int_empty in Hint. Qed.

(** X1. An onboarding submission with the three fields filled in, a
    [family_size] read as a positive 64-bit integer, a rowid left in the
    table and a write that is committed adds exactly one profile, with the
    next rowid and the submitted values (the strings as they were sent),
    and sets the cookie [user_id] to the decimal form of that rowid, for
    30 days and http-only, on the 303 redirect to [/modules]. *)
Theorem onboarding_creates_profile env db request raw fs loc sl rid :
  query_params request !! "family_size" = Some raw ->
  Py.int raw = Some fs ->
  0 < fs <= MAX_ROWID ->
  query_params request !! "location" = Some loc -> loc <> "" ->
  query_params request !! "skill_level" = Some sl -> sl <> "" ->
  committed (fault env) = true ->
  next_rowid (user_profiles_seq db) (map up_id (user_profiles db)) = Some rid ->
  submit_onboarding env db request
  = ({| user_profiles :=
          user_profiles db ++
          [ {| up_id := rid; family_size := fs; location := loc;
               skill_level := sl |} ];
        user_profiles_seq := rid;
        quiz_results := quiz_results db;
        quiz_results_seq := quiz_results_seq db |},
     RedirectResponse "/modules" 303
       (Some {| key := "user_id"; value := Py.str rid;
                max_age := 2592000; httponly := true |})).
Proof.
  intros Hraw Hint Hfs Hloc Hloc' Hsl Hsl' Hf Hnext.
  unfold submit_onboarding, onboarding_try.
  rewrite Hraw, Hloc, Hsl.
  rewrite !truthy_supplied by eauto using int_some_nonempty.
  rewrite Hint.
  replace (0 <? fs) with true by (symmetry; apply Z.ltb_lt; lia).
  rewrite (connect_insert_commit_committed _ _ _ Hf).
  unfold insert_user_profile.
  replace (fits_int64 fs) with true
    by (symmetry; apply fits_int64_iff; unfold MAX_ROWID in *; lia).
  now rewrite Hnext.
Qed.

(** X2. The onboarding handler sets a cookie only for such a form: when
    the response carries a cookie, the three fields were filled in,
    [family_size] was read as a positive 64-bit integer, [connect] and
    [execute] did not raise, and the cookie holds the next rowid of
    [user_profiles]; the store then holds the new profile if the write was
    committed and is as it was otherwise. *)
Theorem cookie_only_for_valid_form env db request cookie :
  snd (submit_onboarding env db request)
    = RedirectResponse "/modules" 303 (Some cookie) ->
  exists raw fs loc sl rid,
    query_params request !! "family_size" = Some raw
    /\ Py.int raw = Some fs /\ 0 < fs <= MAX_ROWID
    /\ query_params request !! "location" = Some loc /\ loc <> ""
    /\ query_params request !! "skill_level" = Some sl /\ sl <> ""
    /\ fault env <> ConnectFails /\ fault env <> ExecuteFails
    /\ next_rowid (user_profiles_seq db) (map up_id (user_profiles db))
       = Some rid
    /\ cookie = {| key := "user_id"; value := Py.str rid;
                   max_age := 2592000; httponly := true |}
    /\ fst (submit_onboarding env db request)
       = (if committed (fault env)
          then {| user_profiles :=
                    user_profiles db ++
                    [ {| up_id := rid; family_size := fs; location := loc;
                         skill_level := sl |} ];
                  user_profiles_seq := rid;
                  quiz_results := quiz_results db;
                  quiz_results_seq := quiz_results_seq db |}
          else db).
Proof.
  rewrite submit_onboarding_try. simpl.
  destruct (onboarding_try env db request) as [db' r] eqn:Htry. simpl.
  apply onboarding_try_valid in Htry
    as [[_ ->] | (raw & fs & loc & sl & dbi & uid & Hraw & Hint & Hpos & Hloc
                  & Hloc' & Hsl & Hsl' & Hf1 & Hf2 & -> & Hins & ->)];
    [discriminate|].
  intros [= <-].
  pose proof (insert_user_profile_fits _ _ _ _ _ Hins) as Hfits.
  apply fits_int64_iff in Hfits.
  apply insert_user_profile_spec in Hins as [-> Hnext].
  exists raw, fs, loc, sl, uid.
  repeat (split; [assumption || lia || reflexivity|]). reflexivity.
Qed.

(** The id of a profile row that is written is the next rowid of the
    table. *)
Lemma writes_profile_next env db request uid :
  writes_profile env db request uid ->
  next_rowid (user_profiles_seq db) (map up_id (user_profiles db)) = Some uid.
Proof.
  intros (p & Hrows & Hid). rewrite submit_onboarding_try in Hrows.
  simpl in Hrows.
  destruct (onboarding_try env db request) as [db' r] eqn:Htry. simpl in *.
  apply onboarding_try_spec in Htry
    as [[-> ->] | (fs & loc & sl & dbi & rid & -> & Hins & ->)].
  - now destruct (app_last_neq _ _ Hrows).
  - apply insert_user_profile_spec in Hins as [-> Hnext].
    destruct (committed (fault env)); simpl in *.
    + apply app_inj_tail in Hrows as [_ <-]. simpl in Hid. now subst rid.
    + now destruct (app_last_neq _ _ Hrows).
Qed.

(** X3. [lastrowid] is read before [commit]: for a valid form (as in
    X1) whose [commit] raises, the handler leaves the store as it was and
    still sets the cookie [user_id] to the rowid the rolled-back insert
    was given, an id that no stored profile has; and the next onboarding
    submission that writes a profile to that store is given the very same
    id. *)
Theorem failed_commit_id_given_again env db request raw fs loc sl rid :
  query_params request !! "family_size" = Some raw ->
  Py.int raw = Some fs ->
  0 < fs <= MAX_ROWID ->
  query_params request !! "location" = Some loc -> loc <> "" ->
  query_params request !! "skill_level" = Some sl -> sl <> "" ->
  fault env = CommitFails ->
  next_rowid (user_profiles_seq db) (map up_id (user_profiles db)) = Some rid ->
  submit_onboarding env db request
    = (db,
       RedirectResponse "/modules" 303
         (Some {| key := "user_id"; value := Py.str rid;
                  max_age := 2592000; httponly := true |}))
  /\ Forall (fun p => up_id p <> rid) (user_profiles db)
  /\ forall env2 request2 uid2,
       writes_profile env2 (fst (submit_onboarding env db request)) request2
         uid2 ->
       uid2 = rid.
Proof.
  intros Hraw Hint Hfs Hloc Hloc' Hsl Hsl' Hf Hnext.
  assert (submit_onboarding env db request
          = (db,
             RedirectResponse "/modules" 303
               (Some {| key := "user_id"; value := Py.str rid;
                        max_age := 2592000; httponly := true |}))) as Hrun.
  { unfold submit_onboarding, onboarding_try.
    rewrite Hraw, Hloc, Hsl.
    rewrite !truthy_supplied by eauto using int_some_nonempty.
    rewrite Hint.
    replace (0 <? fs) with true by (symmetry; apply Z.ltb_lt; lia).
    unfold connect_insert_commit, insert_user_profile. rewrite Hf.
    replace (fits_int64 fs) with true
      by (symmetry; apply fits_int64_iff; unfold MAX_ROWID in *; lia).
    now rewrite Hnext. }
  split; [exact Hrun|]. split.
  - pose proof (next_rowid_spec _ _ _ Hnext) as (_ & _ & Hlt).
    rewrite List.Forall_map in Hlt.
    eapply Forall_impl; [exact Hlt|]. simpl. lia.
  - intros env2 request2 uid2 Hw. rewrite Hrun in Hw. simpl in Hw.
    apply writes_profile_next in Hw. congruence.
Qed.

(** ** The quiz handler and the cookie *)

Lemma int64_short n : fits_int64 n = true -> Z.abs n < 2 ^ 640.
Proof.
  intros Hn. apply fits_int64_iff in Hn.
  assert (MAX_ROWID + 1 < 2 ^ 640) by (vm_compute; reflexivity).
  lia.
Qed.

(** X11. The quiz handler takes the cookie at its word: for every 64-bit
    integer [uid], positive or not, a submission whose cookie is the
    decimal form of [uid] records its result under that [user_id] when the
    write is committed, whatever [user_profiles] holds; no profile is
    looked up and none is created. *)
Theorem result_recorded_without_profile_check env db m request selected uid rid :
  In m modules ->
  Py.truthy (query_params request !! "selected_option") = Some selected ->
  fits_int64 uid = true ->
  cookies request !! "user_id" = Some (Py.str uid) ->
  committed (fault env) = true ->
  next_rowid (quiz_results_seq db) (map qr_id (quiz_results db)) = Some rid ->
  quiz_results (fst (submit_quiz env db (id m) request))
    = (quiz_results db
       ++ [result_row rid uid (id m)
             (String.eqb selected (answer (question m))) (now env)])%list
  /\ user_profiles (fst (submit_quiz env db (id m) request))
     = user_profiles db.
Proof.
  intros Hin Hsel Hfits Hcookie Hf Hnext.
  split; [|apply submit_quiz_profiles].
  rewrite (quiz_response env db m request selected Hin Hsel). simpl.
  apply (record_result_recorded env db (id m) request _ (Py.str uid) uid rid);
    auto using module_id_fits.
  now apply PyFacts.int_str, int64_short.
Qed.

(** X12. An integer the table cannot take is dropped without a word: a
    [family_size] above the 64-bit range, or a table with no rowid left,
    gives the plain redirect, no profile and no cookie; a [user_id] cookie
    outside the 64-bit range gives the usual quiz response and no row. *)
Theorem unstorable_integers_dropped :
  (forall env db request raw fs,
      query_params request !! "family_size" = Some raw ->
      Py.int raw = Some fs -> MAX_ROWID < fs ->
      submit_onboarding env db request
        = (db, RedirectResponse "/modules" 303 None))
  /\ (forall env db request,
        next_rowid (user_profiles_seq db) (map up_id (user_profiles db))
          = None ->
        submit_onboarding env db request
          = (db, RedirectResponse "/modules" 303 None))
  /\ (forall env db module_id request s uid,
        cookies request !! "user_id" = Some s ->
        Py.int s = Some uid -> fits_int64 uid = false ->
        fst (submit_quiz env db module_id request) = db).
Proof.
  split; [|split].
  - intros env db request raw fs Hraw Hint Hbig.
    rewrite submit_onboarding_try.
    destruct (onboarding_try env db request) as [db' r] eqn:Htry.
    apply onboarding_try_valid in Htry
      as [[-> ->] | (raw' & fs' & loc & sl & dbi & uid & Hraw' & Hint' & _ & _
                     & _ & _ & _ & _ & _ & _ & Hins & _)]; [reflexivity|].
    apply insert_user_profile_fits, fits_int64_iff in Hins.
    assert (fs' = fs) by congruence. lia.
  - intros env db request Hfull.
    rewrite submit_onboarding_try.
    destruct (onboarding_try env db request) as [db' r] eqn:Htry.
    apply onboarding_try_spec in Htry
      as [[-> ->] | (fs & loc & sl & dbi & uid & _ & Hins & _)]; [reflexivity|].
    apply insert_user_profile_spec in Hins as [_ Hnext]. congruence.
  - intros env db module_id request s uid Hcookie Hint Hbig.
    unfold submit_quiz.
    destruct (find_module module_id); [|reflexivity].
    destruct (Py.truthy _); [|reflexivity]. simpl.
    unfold record_result. rewrite Hcookie, Hint.
    destruct (connect_insert_commit (fault env) db _) as [db' r] eqn:Hc.
    apply connect_insert_commit_spec in Hc
      as [[-> _] | (_ & rid & _ & Hins)]; [reflexivity|].
    apply insert_quiz_result_fits in Hins. congruence.
Qed.

(** ** Profiles and the ids handed out *)

Lemma serve_app db calls1 calls2 :
  serve db (calls1 ++ calls2) = serve (serve db calls1) calls2.
Proof. apply fold_left_app. Qed.

Lemma same_id_same_row (l : list UserProfile) p q :
  List.NoDup (map up_id l) -> In p l -> In q l -> up_id p = up_id q -> p = q.
Proof.
  induction l as [|r l IH]; simpl; [intros _ []|].
  intros Hnd Hp Hq Heq. inversion_clear Hnd as [|? ? Hnot Hnd'].
  destruct Hp as [-> | Hp], Hq as [-> | Hq]; auto.
  - destruct Hnot. rewrite Heq. now apply in_map.
  - destruct Hnot. rewrite <- Heq. now apply in_map.
Qed.

(** X13. On a store that started from [init_db], the id of a profile
    that an onboarding submission wrote names that profile for good:
    after any further requests [user_profiles] holds exactly one row with
    that id. *)
Theorem issued_id_names_one_profile calls0 env request uid calls :
  writes_profile env (serve (init_db None) calls0) request uid ->
  exists p,
    In p (user_profiles
            (serve (fst (submit_onboarding env (serve (init_db None) calls0)
                           request)) calls))
    /\ up_id p = uid
    /\ forall q,
         In q (user_profiles
                 (serve (fst (submit_onboarding env
                                (serve (init_db None) calls0) request)) calls)) ->
         up_id q = uid -> q = p.
Proof.
  set (db := serve (init_db None) calls0).
  set (db1 := fst (submit_onboarding env db request)).
  intros (p & Hrows & Hid). fold db1 in Hrows.
  assert (user_profiles db1 `prefix_of` user_profiles (serve db1 calls))
    as [k Hk].
  { apply (serve_preserves
             (fun d => user_profiles db1 `prefix_of` user_profiles d));
      [|reflexivity].
    intros d d' Hstep Hd. apply store_step_appends in Hstep as [Hp _].
    etransitivity; eassumption. }
  assert (List.NoDup (map up_id (user_profiles (serve db1 calls)))) as Hnd.
  { assert (serve db1 calls
            = serve (init_db None)
                (calls0 ++ GetOnboarding env request :: calls)) as ->
        by (now rewrite serve_app).
    pose proof (serve_preserves
                  (fun d => numbered (map up_id (user_profiles d))
                                     (user_profiles_seq d)
                            /\ numbered (map qr_id (quiz_results d))
                                        (quiz_results_seq d))
                  store_step_numbered
                  (calls0 ++ GetOnboarding env request :: calls)
                  (init_db None)) as [[Hids _] _]; [now split|].
    rewrite Hids. apply NoDup_ListNoDup, NoDup_seqZ. }
  assert (In p (user_profiles (serve db1 calls))) as Hp.
  { rewrite Hk, Hrows. apply in_or_app. left.
    apply in_or_app. right. now left. }
  exists p. repeat split; [exact Hp | exact Hid |].
  intros q Hq Hqid. apply (same_id_same_row _ q p Hnd Hq Hp). congruence.
Qed.

(** ** The catalog pages *)

(** [NoDup] of a list written out. *)
Ltac nodup_concrete :=
  repeat (constructor; [simpl; intuition discriminate|]); constructor.

(** X4. Every module on the list page can be opened: the module page of
    its id is found and shows that very module (the ids of the catalog are
    pairwise distinct, so the first match is the module itself). *)
Theorem listed_module_opens request request' template context ms m :
  modules_list request = TemplateResponse template context ->
  context !! "modules" = Some (VModules ms) ->
  In m ms ->
  module_detail (id m) request'
    = TemplateResponse "module_detail.html"
        (<["request" := VRequest request']>
         (<["module" := VModule m]> ∅))
  /\ List.NoDup (map id ms).
Proof.
  unfold modules_list. intros [= <- <-] Hctx Hin.
  change (Some (VModules modules) = Some (VModules ms)) in Hctx.
  injection Hctx as <-. split.
  - unfold module_detail. now rewrite (find_module_in m Hin).
  - simpl. nodup_concrete.
Qed.



End StoreProperties.

(** ** The further properties on concrete requests *)

Section MoreExamples.

#[local] Existing Instance Py.default_runtime.

Import Sample.

(** The Portland form on a fresh store. *)
Lemma onboarding_creates_profile_witness :
  query_params portland !! "family_size" = Some "3"
  /\ Py.int "3" = Some 3
  /\ 0 < 3 <= MAX_ROWID
  /\ query_params portland !! "location" = Some "Portland"
  /\ "Portland" <> ""
  /\ query_params portland !! "skill_level" = Some "beginner"
  /\ "beginner" <> ""
  /\ committed (fault (env NoFault)) = true
  /\ next_rowid (user_profiles_seq empty_db)
                (map up_id (user_profiles empty_db)) = Some 1
  /\ submit_onboarding (env NoFault) empty_db portland
     = ({| user_profiles :=
             [ {| up_id := 1; family_size := 3; location := "Portland";
                  skill_level := "beginner" |} ];
           user_profiles_seq := 1;
           quiz_results := [];
           quiz_results_seq := 0 |},
        RedirectResponse "/modules" 303
          (Some {| key := "user_id"; value := "1"; max_age := 2592000;
                   httponly := true |})).
Proof.
  assert (0 < 3 <= MAX_ROWID) as Hfs by (unfold MAX_ROWID; lia).
  assert ("Portland" <> "") as Hloc by discriminate.
  assert ("beginner" <> "") as Hsl by discriminate.
  repeat (split; [reflexivity || assumption|]).
  exact (onboarding_creates_profile (env NoFault) empty_db portland
           "3" 3 "Portland" "beginner" 1
           eq_refl eq_refl Hfs eq_refl Hloc eq_refl Hsl eq_refl eq_refl).
Defined.

(** The cookie of the Portland form. *)
Lemma cookie_only_for_valid_form_witness :
  snd (submit_onboarding (env CloseFails) empty_db portland)
    = RedirectResponse "/modules" 303
        (Some {| key := "user_id"; value := "1"; max_age := 2592000;
                 httponly := true |})
  /\ exists raw fs loc sl rid,
       query_params portland !! "family_size" = Some raw
       /\ Py.int raw = Some fs /\ 0 < fs <= MAX_ROWID
       /\ query_params portland !! "location" = Some loc /\ loc <> ""
       /\ query_params portland !! "skill_level" = Some sl /\ sl <> ""
       /\ fault (env CloseFails) <> ConnectFails
       /\ fault (env CloseFails) <> ExecuteFails
       /\ next_rowid (user_profiles_seq empty_db)
                     (map up_id (user_profiles empty_db)) = Some rid
       /\ {| key := "user_id"; value := "1"; max_age := 2592000;
             httponly := true |}
          = {| key := "user_id"; value := Py.str rid; max_age := 2592000;
               httponly := true |}
       /\ fst (submit_onboarding (env CloseFails) empty_db portland)
          = (if committed (fault (env CloseFails))
             then {| user_profiles :=
                       user_profiles empty_db ++
                       [ {| up_id := rid; family_size := fs; location := loc;
                            skill_level := sl |} ];
                     user_profiles_seq := rid;
                     quiz_results := quiz_results empty_db;
                     quiz_results_seq := quiz_results_seq empty_db |}
             else empty_db).
Proof.
  split; [reflexivity|].
  exact (cookie_only_for_valid_form (env CloseFails) empty_db portland _
           eq_refl).
Defined.

(** The Portland form with a commit that raises, then a family of five
    in Salem. *)
Lemma failed_commit_id_given_again_witness :
  query_params portland !! "family_size" = Some "3"
  /\ Py.int "3" = Some 3
  /\ 0 < 3 <= MAX_ROWID
  /\ query_params portland !! "location" = Some "Portland"
  /\ "Portland" <> ""
  /\ query_params portland !! "skill_level" = Some "beginner"
  /\ "beginner" <> ""
  /\ fault (env CommitFails) = CommitFails
  /\ next_rowid (user_profiles_seq empty_db)
                (map up_id (user_profiles empty_db)) = Some 1
  /\ submit_onboarding (env CommitFails) empty_db portland
     = (empty_db,
        RedirectResponse "/modules" 303
          (Some {| key := "user_id"; value := "1"; max_age := 2592000;
                   httponly := true |}))
  /\ writes_profile (env NoFault)
       (fst (submit_onboarding (env CommitFails) empty_db portland))
       (get [("family_size", "5"); ("location", "Salem");
             ("skill_level", "expert")] []) 1.
Proof.
  assert (0 < 3 <= MAX_ROWID) as Hfs by (unfold MAX_ROWID; lia).
  assert ("Portland" <> "") as Hloc by discriminate.
  assert ("beginner" <> "") as Hsl by discriminate.
  do 9 (split; [reflexivity || assumption|]).
  split.
  - exact (proj1 (failed_commit_id_given_again (env CommitFails) empty_db
                    portland "3" 3 "Portland" "beginner" 1
                    eq_refl eq_refl Hfs eq_refl Hloc eq_refl Hsl eq_refl
                    eq_refl)).
  - eexists; split; reflexivity.
Defined.

(** The list page and the module pages. *)
Lemma listed_module_opens_witness :
  modules_list (get [] [])
    = TemplateResponse "modules.html"
        (<["request" := VRequest (get [] [])]>
         (<["modules" := VModules modules]> ∅))
  /\ (<["request" := VRequest (get [] [])]>
       (<["modules" := VModules modules]> ∅) : gmap string Value)
      !! "modules" = Some (VModules modules)
  /\ In home_kit modules
  /\ module_detail 1 (get [] [("user_id", "1")])
     = TemplateResponse "module_detail.html"
         (<["request" := VRequest (get [] [("user_id", "1")])]>
          (<["module" := VModule home_kit]> ∅)).
Proof.
  assert (In home_kit modules) as Hin by (now left).
  split; [reflexivity|]. split; [reflexivity|]. split; [exact Hin|].
  exact (proj1 (listed_module_opens (get [] []) (get [] [("user_id", "1")])
                  _ _ modules home_kit eq_refl eq_refl Hin)).
Defined.


(** A cookie that no onboarding ever set: [user_id=-5], on a store
    without profiles. *)
Lemma result_recorded_without_profile_check_witness :
  In home_kit modules
  /\ Py.truthy (query_params (answer_with "One gallon" [("user_id", "-5")])
                  !! "selected_option") = Some "One gallon"
  /\ fits_int64 (-5) = true
  /\ cookies (answer_with "One gallon" [("user_id", "-5")]) !! "user_id"
     = Some (Py.str (-5))
  /\ committed (fault (env NoFault)) = true
  /\ next_rowid (quiz_results_seq empty_db)
                (map qr_id (quiz_results empty_db)) = Some 1
  /\ quiz_results
       (fst (submit_quiz (env NoFault) empty_db 1
               (answer_with "One gallon" [("user_id", "-5")])))
     = [result_row 1 (-5) 1 true "2025-06-01 12:00:00"].
Proof.
  assert (In home_kit modules) as Hin by (now left).
  split; [exact Hin|].
  repeat (split; [reflexivity|]).
  exact (proj1 (result_recorded_without_profile_check (env NoFault) empty_db
                  home_kit (answer_with "One gallon" [("user_id", "-5")])
                  "One gallon" (-5) 1 Hin eq_refl eq_refl eq_refl eq_refl
                  eq_refl)).
Defined.

(** A household of 2^63, and a cookie of 2^63. *)
Lemma unstorable_integers_dropped_witness :
  query_params
    (get [("family_size", "9223372036854775808"); ("location", "Portland");
          ("skill_level", "beginner")] []) !! "family_size"
    = Some "9223372036854775808"
  /\ Py.int "9223372036854775808" = Some 9223372036854775808
  /\ MAX_ROWID < 9223372036854775808
  /\ submit_onboarding (env NoFault) empty_db
       (get [("family_size", "9223372036854775808"); ("location", "Portland");
             ("skill_level", "beginner")] [])
     = (empty_db, RedirectResponse "/modules" 303 None)
  /\ fst (submit_quiz (env NoFault) empty_db 1
            (answer_with "One gallon" [("user_id", "9223372036854775808")]))
     = empty_db.
Proof.
  assert (MAX_ROWID < 9223372036854775808) as Hbig by reflexivity.
  split; [reflexivity|]. split; [reflexivity|]. split; [exact Hbig|].
  split.
  - exact (proj1 unstorable_integers_dropped (env NoFault) empty_db
             (get [("family_size", "9223372036854775808");
                   ("location", "Portland"); ("skill_level", "beginner")] [])
             "9223372036854775808" 9223372036854775808
             eq_refl eq_refl Hbig).
  - exact (proj2 (proj2 unstorable_integers_dropped) (env NoFault) empty_db 1
             (answer_with "One gallon" [("user_id", "9223372036854775808")])
             "9223372036854775808" 9223372036854775808
             eq_refl eq_refl eq_refl).
Defined.

(** The Portland form on a fresh store, then the same form again:
    profile 1 is still the only row with id 1. *)
Lemma issued_id_names_one_profile_witness :
  writes_profile (env NoFault) (serve (init_db None) []) portland 1
  /\ exists p,
       In p (user_profiles
               (serve (fst (submit_onboarding (env NoFault)
                              (serve (init_db None) []) portland))
                  [GetOnboarding (env NoFault) portland]))
       /\ up_id p = 1
       /\ forall q,
            In q (user_profiles
                    (serve (fst (submit_onboarding (env NoFault)
                                   (serve (init_db None) []) portland))
                       [GetOnboarding (env NoFault) portland])) ->
            up_id q = 1 -> q = p.
Proof.
  assert (writes_profile (env NoFault) (serve (init_db None) []) portland 1)
    as Hw by (eexists; split; reflexivity).
  split; [exact Hw|].
  exact (issued_id_names_one_profile [] (env NoFault) portland 1
           [GetOnboarding (env NoFault) portland] Hw).
Defined.

End MoreExamples.
